(** * ecommerce-shop: the REST handlers, the brand validator, the user store
      and the session/token flow

    The development follows the repository's packages:
    - [time]     : the part of Go's [time.Time] that the code reads;
    - [strconv]  : [ParseInt] at base 10 and 64 bits, as the handlers call it;
    - [model]    : [model/product_brand.go] and the error values it builds;
    - [postgres] : the user store (the postgres implementation of [store.UserStore]);
    - [apiv1]    : the handlers of [api/v1/user.go] and of the product routes;
    - [auth]     : the token issuer, session store, verifier and refresh flow;
    - [handlers] : the other handlers of the user and product routes.

    The first half of the file holds the definitions, package by package,
    and the fixtures they are run on; the second half the statements about
    them. *)

From Stdlib Require Import ZArith Lia Bool Ascii String List.
From stdpp Require Import gmap strings list option.

Local Open Scope string_scope.
Local Open Scope list_scope.
Local Open Scope Z_scope.

(* ===================================================================== *)
(** ** Go values the packages share *)
(* ===================================================================== *)

Module time.

(** [time.Time], as [IsZero] reads it: the seconds and the nanoseconds since
    January 1, year 1, 00:00:00 UTC. *)
Record Time := { sec : Z; nsec : Z }.

(** [func (t Time) IsZero() bool { return t.sec() == 0 && t.nsec() == 0 }] *)
Definition IsZero (t : Time) : bool := (sec t =? 0) && (nsec t =? 0).

(** The zero value of the struct. *)
Definition zero : Time := {| sec := 0; nsec := 0 |}.

End time.

Module strconv.

(** The bounds of [int64]. *)
Definition minInt64 : Z := - 2 ^ 63.
Definition maxInt64 : Z := 2 ^ 63 - 1.

Definition digit (c : ascii) : option Z :=
  let n := Z.of_nat (nat_of_ascii c) in
  if (48 <=? n) && (n <=? 57) then Some (n - 48) else None.

(** The digits of a string read left to right at base 10; [None] at the
    first character that is not a digit. *)
Fixpoint digits (acc : Z) (s : string) : option Z :=
  match s with
  | EmptyString => Some acc
  | String c rest =>
      match digit c with
      | Some d => digits (10 * acc + d) rest
      | None => None
      end
  end.

(** Go's [error], as far as the callers look at it: nil or not. *)
Definition error := string.

(** [strconv.ParseInt(s, 10, 64)]: an optional sign, then one digit or more.
    A syntax error returns 0, a range error the nearest bound; both with a
    non-nil error. *)
Definition ParseInt (s : string) : Z * option error :=
  let '(neg, body) :=
    match s with
    | String "+" rest => (false, rest)
    | String "-" rest => (true, rest)
    | _ => (false, s)
    end in
  match body with
  | EmptyString => (0, Some "invalid syntax")
  | _ =>
      match digits 0 body with
      | Some n =>
          let v := if neg then - n else n in
          if v <? minInt64 then (minInt64, Some "value out of range")
          else if maxInt64 <? v then (maxInt64, Some "value out of range")
          else (v, None)
      | None => (0, Some "invalid syntax")
      end
  end.

End strconv.

(* ===================================================================== *)
(** ** package model *)
(* ===================================================================== *)

Module model.

(** [i18n.Message{ID: ..., Other: ...}] *)
Record Message := { MessageID : string; Other : string }.

(** The error codes the sources name. *)
Inductive ErrCode := ErrInternal | ErrInvalid | ErrConflict.

(** [Invalid(field, l, msg)] builds one entry of a validation error. Its
    body is in another file of package [model], so the entry is kept as the
    call that built it: the field, the locale of the localizer and the
    message. *)
Record ValidationError := Invalid { Field : string; Locale : string; Msg : Message }.

(** [ValidationErrors], the accumulator of [Validate]: the entries in the
    order they were added. [Add] appends, [IsZero] tests for no entry. *)
Definition ValidationErrors := list ValidationError.

Definition Add (errs : ValidationErrors) (e : ValidationError) : ValidationErrors :=
  errs ++ [e].

Definition IsZero (errs : ValidationErrors) : bool :=
  match errs with [] => true | _ => false end.

(** [*AppErr]. The two constructors are the two functions the sources build
    one with; their bodies are declared elsewhere, so a value is the call
    that made it. *)
Inductive AppErr :=
| NewAppErr (op : string) (code : ErrCode) (locale : string) (msg : Message) (status : Z)
    (details : option (list (string * string)))
| NewValidationError (op : string) (msg : Message) (id : string) (errs : ValidationErrors).

(** [locale.GetUserLocalizer("en")], kept as the locale it was asked for. *)
Definition GetUserLocalizer (lang : string) : string := lang.

(** The HTTP status codes of [net/http] that the sources use. *)
Definition StatusOK : Z := 200.
Definition StatusCreated : Z := 201.
Definition StatusBadRequest : Z := 400.
Definition StatusInternalServerError : Z := 500.

(** Go's [s == ""]. *)
Definition is_empty (s : string) : bool :=
  match s with EmptyString => true | _ => false end.

(** [model.User]. The struct is declared in another file of the package; the
    fields are the columns that [PgUserStore.Save] writes, the [ID] it sets
    and the [AvatarPublicID] that [deleteUserAvatar] reads through a pointer. *)
Module User.
Record t := {
  ID : Z;
  FirstName : string;
  LastName : string;
  Username : string;
  Email : string;
  Password : string;
  Role : string;
  Gender : string;
  Locale : string;
  AvatarURL : string;
  AvatarPublicID : option string;
  Active : bool;
  EmailVerified : bool;
  FailedAttempts : Z;
  LastLoginAt : time.Time;
  CreatedAt : time.Time;
  UpdatedAt : time.Time;
  DeletedAt : time.Time
}.

(** [model.User{}]: every field at its zero value. *)
Definition zero : t := {|
  ID := 0; FirstName := ""; LastName := ""; Username := ""; Email := "";
  Password := ""; Role := ""; Gender := ""; Locale := ""; AvatarURL := "";
  AvatarPublicID := None; Active := false; EmailVerified := false;
  FailedAttempts := 0; LastLoginAt := time.zero; CreatedAt := time.zero;
  UpdatedAt := time.zero; DeletedAt := time.zero |}.
End User.

(** *** model/product_brand.go *)

Definition msgInvalidBrand := {| MessageID := "model.product_brand.validate.app_error"; Other := "invalid brand data" |}.
Definition msgValidateBrandID := {| MessageID := "model.product_brand.validate.id.app_error"; Other := "invalid brand id" |}.
Definition msgValidateBrandProductID := {| MessageID := "model.product_brand.validate.product_id.app_error"; Other := "invalid brand product id" |}.
Definition msgValidateBrandName := {| MessageID := "model.product_brand.validate.name.app_error"; Other := "invalid brand name" |}.
Definition msgValidateBrandSlug := {| MessageID := "model.product_brand.validate.slug.app_error"; Other := "invalid brand slug" |}.
Definition msgValidateBrandDescription := {| MessageID := "model.product_brand.validate.description.app_error"; Other := "invalid brand description" |}.
Definition msgValidateBrandType := {| MessageID := "model.product_brand.validate.type.app_error"; Other := "invalid brand type" |}.
Definition msgValidateBrandEmail := {| MessageID := "model.product_brand.validate.email.app_error"; Other := "invalid brand email" |}.
Definition msgValidateBrandWebsiteURL := {| MessageID := "model.product_brand.validate.website_url.app_error"; Other := "invalid brand website URL" |}.
Definition msgValidateBrandCrAt := {| MessageID := "model.product_brand.validate.created_at.app_error"; Other := "invalid brand created_at timestamp" |}.
Definition msgValidateBrandUpAt := {| MessageID := "model.product_brand.validate.updated_at.app_error"; Other := "invalid brand updated_at timestamp" |}.

Module ProductBrand.

(** [type ProductBrand struct] *)
Record t := {
  ID : Z;
  ProductID : Z;
  Name : string;
  Slug : string;
  Type_ : string;
  Description : string;
  Email : string;
  WebsiteURL : string;
  CreatedAt : time.Time;
  UpdatedAt : time.Time
}.

(** [if cond { errs.Add(e) }] *)
Definition add_if (cond : bool) (e : ValidationError) (errs : ValidationErrors) : ValidationErrors :=
  if cond then Add errs e else errs.

(** [func (pb *ProductBrand) Validate() *AppErr]; [None] is the nil result. *)
Definition Validate (pb : t) : option AppErr :=
  let errs : ValidationErrors := [] in
  let l := GetUserLocalizer "en" in
  let errs := add_if (negb (ID pb =? 0)) (Invalid "brand.id" l msgValidateBrandID) errs in
  let errs := add_if (negb (ProductID pb =? 0)) (Invalid "brand.product_id" l msgValidateBrandProductID) errs in
  let errs := add_if (is_empty (Name pb)) (Invalid "brand.name" l msgValidateBrandName) errs in
  let errs := add_if (is_empty (Slug pb)) (Invalid "brand.slug" l msgValidateBrandSlug) errs in
  let errs := add_if (is_empty (Type_ pb)) (Invalid "brand.type" l msgValidateBrandType) errs in
  let errs := add_if (is_empty (Description pb)) (Invalid "brand.description" l msgValidateBrandDescription) errs in
  let errs := add_if (is_empty (Email pb)) (Invalid "brand.email" l msgValidateBrandEmail) errs in
  let errs := add_if (is_empty (WebsiteURL pb)) (Invalid "brand.website_url" l msgValidateBrandWebsiteURL) errs in
  let errs := add_if (time.IsZero (CreatedAt pb)) (Invalid "brand.created_at" l msgValidateBrandCrAt) errs in
  let errs := add_if (time.IsZero (UpdatedAt pb)) (Invalid "brand.updated_at" l msgValidateBrandUpAt) errs in
  if negb (IsZero errs) then Some (NewValidationError "ProductBrand" msgInvalidBrand "" errs)
  else None.

(** The reading of [Validate] that the specification gives, written from
    its words and not from the code: the ten criteria a brand must meet,
    each with the entry that its failure reports. *)
Definition brand_criteria (pb : t) : list (bool * ValidationError) :=
  [ (ID pb =? 0, Invalid "brand.id" "en" msgValidateBrandID);
    (ProductID pb =? 0, Invalid "brand.product_id" "en" msgValidateBrandProductID);
    (negb (is_empty (Name pb)), Invalid "brand.name" "en" msgValidateBrandName);
    (negb (is_empty (Slug pb)), Invalid "brand.slug" "en" msgValidateBrandSlug);
    (negb (is_empty (Type_ pb)), Invalid "brand.type" "en" msgValidateBrandType);
    (negb (is_empty (Description pb)), Invalid "brand.description" "en" msgValidateBrandDescription);
    (negb (is_empty (Email pb)), Invalid "brand.email" "en" msgValidateBrandEmail);
    (negb (is_empty (WebsiteURL pb)), Invalid "brand.website_url" "en" msgValidateBrandWebsiteURL);
    (negb (time.IsZero (CreatedAt pb)), Invalid "brand.created_at" "en" msgValidateBrandCrAt);
    (negb (time.IsZero (UpdatedAt pb)), Invalid "brand.updated_at" "en" msgValidateBrandUpAt) ].

(** One entry per criterion that fails, in the order of the criteria. *)
Definition failing (criteria : list (bool * ValidationError)) : ValidationErrors :=
  List.map snd (List.filter (fun c => negb (fst c)) criteria).

Definition failing_entries (pb : t) : ValidationErrors :=
  failing (brand_criteria pb).

(** The condition for a nil result, as a proposition. *)
Definition brand_ok (pb : t) : Prop :=
  ID pb = 0 /\ ProductID pb = 0 /\
  Name pb <> "" /\ Slug pb <> "" /\ Type_ pb <> "" /\ Description pb <> "" /\
  Email pb <> "" /\ WebsiteURL pb <> "" /\
  time.IsZero (CreatedAt pb) = false /\ time.IsZero (UpdatedAt pb) = false.

End ProductBrand.

End model.

(** *** model/product_brand.go: the hooks before a write *)

(** [PreSave] and [PreUpdate] of [ProductBrand]. [NormalizeEmail] is a
    function of package [model] declared in another file; [now] is what
    [time.Now()] returns. *)
Module ProductBrandHooks.
Import model model.ProductBrand.

Section Hooks.
Variable NormalizeEmail : string -> string.

(** [func (pb *ProductBrand) PreSave()]:
    [pb.CreatedAt = time.Now(); pb.UpdatedAt = pb.CreatedAt;
     pb.Email = NormalizeEmail(pb.Email)] *)
Definition PreSave (now : time.Time) (pb : t) : t :=
  let pb := {| ID := ID pb; ProductID := ProductID pb; Name := Name pb; Slug := Slug pb;
               Type_ := Type_ pb; Description := Description pb; Email := Email pb;
               WebsiteURL := WebsiteURL pb; CreatedAt := now; UpdatedAt := UpdatedAt pb |} in
  let pb := {| ID := ID pb; ProductID := ProductID pb; Name := Name pb; Slug := Slug pb;
               Type_ := Type_ pb; Description := Description pb; Email := Email pb;
               WebsiteURL := WebsiteURL pb; CreatedAt := CreatedAt pb;
               UpdatedAt := CreatedAt pb |} in
  {| ID := ID pb; ProductID := ProductID pb; Name := Name pb; Slug := Slug pb;
     Type_ := Type_ pb; Description := Description pb; Email := NormalizeEmail (Email pb);
     WebsiteURL := WebsiteURL pb; CreatedAt := CreatedAt pb; UpdatedAt := UpdatedAt pb |}.

(** [func (pb *ProductBrand) PreUpdate()]:
    [pb.UpdatedAt = time.Now(); pb.Email = NormalizeEmail(pb.Email)] *)
Definition PreUpdate (now : time.Time) (pb : t) : t :=
  let pb := {| ID := ID pb; ProductID := ProductID pb; Name := Name pb; Slug := Slug pb;
               Type_ := Type_ pb; Description := Description pb; Email := Email pb;
               WebsiteURL := WebsiteURL pb; CreatedAt := CreatedAt pb; UpdatedAt := now |} in
  {| ID := ID pb; ProductID := ProductID pb; Name := Name pb; Slug := Slug pb;
     Type_ := Type_ pb; Description := Description pb; Email := NormalizeEmail (Email pb);
     WebsiteURL := WebsiteURL pb; CreatedAt := CreatedAt pb; UpdatedAt := UpdatedAt pb |}.

End Hooks.

(** The ten entries [Validate] can report, in the order of its checks. *)
Definition all_entries : ValidationErrors :=
  [ Invalid "brand.id" "en" msgValidateBrandID;
    Invalid "brand.product_id" "en" msgValidateBrandProductID;
    Invalid "brand.name" "en" msgValidateBrandName;
    Invalid "brand.slug" "en" msgValidateBrandSlug;
    Invalid "brand.type" "en" msgValidateBrandType;
    Invalid "brand.description" "en" msgValidateBrandDescription;
    Invalid "brand.email" "en" msgValidateBrandEmail;
    Invalid "brand.website_url" "en" msgValidateBrandWebsiteURL;
    Invalid "brand.created_at" "en" msgValidateBrandCrAt;
    Invalid "brand.updated_at" "en" msgValidateBrandUpAt ].

End ProductBrandHooks.

(* ===================================================================== *)
(** ** package postgres: the user store *)
(* ===================================================================== *)

Module postgres.
Import model.

(** The database behind [sqlx.DB], as the user store sees it: the rows of
    [public.user] and the statements sent so far, oldest first. *)
Record DB := { users : list User.t; statements : list string }.

(** [type PgUserStore struct { PgStore }]: the store is its [db] handle. *)
Record PgUserStore := { db : DB }.

Definition msgGetUser := {| MessageID := "store.postgres.user.login.app_error"; Other := "could not get the user from db" |}.

(** [s.db.Get(&user, query, arg)]: sends the statement and scans the first
    row that matches into [user]. It returns an error when the connection or
    the scan fails ([fault] is what the driver reports at this call, if
    anything), and [sql.ErrNoRows] when no row matches. *)
Definition db_Get (query : string) (matches : User.t -> bool) (fault : option strconv.error)
    (d : DB) : (User.t + strconv.error) * DB :=
  let d' := {| users := users d; statements := statements d ++ [query] |} in
  match fault with
  | Some e => (inr e, d')
  | None =>
      match List.find matches (users d) with
      | Some u => (inl u, d')
      | None => (inr "sql: no rows in result set", d')
      end
  end.

(** [func (s PgUserStore) Get(id int64)], returning a [*model.User] and a
    [*model.AppErr]; [None] is nil. Every error of [s.db.Get] becomes the
    same [AppErr]. *)
Definition Get (s : PgUserStore) (id : Z) (fault : option strconv.error)
  : (option User.t * option AppErr) * PgUserStore :=
  match db_Get "SELECT * FROM public.user where id = $1" (fun u => User.ID u =? id) fault (db s) with
  | (inr _, d) =>
      (None, Some (NewAppErr "PgUserStore.Get" ErrInternal (GetUserLocalizer "en") msgGetUser StatusInternalServerError None),
       {| db := d |})
  | (inl user, d) => (Some user, None, {| db := d |})
  end.

(** [func (s PgUserStore) GetByEmail(email string)] *)
Definition GetByEmail (s : PgUserStore) (email : string) (fault : option strconv.error)
  : (option User.t * option AppErr) * PgUserStore :=
  match db_Get "SELECT * FROM public.user where email = $1" (fun u => String.eqb (User.Email u) email) fault (db s) with
  | (inr _, d) =>
      (None, Some (NewAppErr "PgUserStore.GetByEmail" ErrInternal (GetUserLocalizer "en") msgGetUser StatusInternalServerError None),
       {| db := d |})
  | (inl user, d) => (Some user, None, {| db := d |})
  end.

(** [func (s PgUserStore) GetAll()], whose body is
    [return []*model.User{}, nil] *)
Definition GetAll (s : PgUserStore) : (list User.t * option AppErr) * PgUserStore :=
  ([], None, s).

(** [func (s PgUserStore) Update(id int64, u *model.User)], whose body is
    [return &model.User{}, nil] *)
Definition Update (s : PgUserStore) (id : Z) (u : option User.t) : (option User.t * option AppErr) * PgUserStore :=
  (Some User.zero, None, s).

(** [func (s PgUserStore) Delete(id int64)], whose body is
    [return &model.User{}, nil] *)
Definition Delete (s : PgUserStore) (id : Z) : (option User.t * option AppErr) * PgUserStore :=
  (Some User.zero, None, s).

End postgres.

(* ===================================================================== *)
(** ** package apiv1: the handlers *)
(* ===================================================================== *)

Module apiv1.
Import model.

(** The values that a handler only carries from a decoder to the application
    layer or to the response; their declarations are in other packages
    ([model], [mime/multipart]). *)
Class Values := {
  UserLogin : Type;
  RefreshToken : Type;
  TokenMetadata : Type;
  Product : Type;
  ProductPatch : Type;
  ProductTagPatch : Type;
  FileHeader : Type
}.

(** [model.AccessData], with the field that [logout] reads. *)
Record AccessData := { AccessUUID : string }.

(** [model.ProductTag], with the field that [createProduct] sets, in
    [&model.ProductTag{TagID: model.NewInt64(id)}]; [None] is the nil pointer. *)
Record ProductTag := { TagID : option Z }.

Definition error := strconv.error.

Definition msgUserFromJSON := {| MessageID := "api.user.create_user.json.app_error"; Other := "could not decode user json data" |}.
Definition msgRefreshTokenFromJSON := {| MessageID := "api.user.create_user.json.app_error"; Other := "could not decode token json data" |}.
Definition msgProductPatchFromJSON := {| MessageID := "api.product.patch_product.app_error"; Other := "could not decode product patch data" |}.
Definition msgProductAvatarMultipart := {| MessageID := "api.product.create_product.multipart.app_error"; Other := "could not decode product multipart data" |}.
Definition msgURLParamErr := {| MessageID := "api.product.url.params.app_error"; Other := "could not parse URL params" |}.

Section Handlers.
Context `{Values} {AppState : Type}.

(** [multipart.Form]: [Value] and [File] are Go maps from a field name to
    the values sent under it. *)
Record Form := {
  Value : gmap string (list string);
  File : gmap string (list FileHeader)
}.

(** [*http.Request], as the handlers and the application layer read it:
    the body, the cookies, the URL parameters of the route (chi), and what [r.ParseMultipartForm] makes of the body:
    its error and the form it leaves in [r.MultipartForm]. *)
Record Request := {
  Body : string;
  Cookies : gmap string string;
  URLParams : gmap string string;
  ParseMultipartForm : option error;
  MultipartForm : option Form
}.

(** [chi.URLParam(r, key)]: the empty string when the route has no such
    parameter. *)
Definition URLParam (r : Request) (key : string) : string :=
  default "" (URLParams r !! key).

(** [m[key]] on a Go map of slices: the nil slice when the key is absent. *)
Definition index_map {A : Type} (m : gmap string (list A)) (key : string) : list A :=
  default [] (m !! key).

(** What a handler sends to [respondJSON]. *)
Inductive Payload :=
| UserJSON (u : option User.t)
| ProductJSON (p : option Product)
| ProductTagJSON (t : option ProductTag).

(** What a handler does to its [http.ResponseWriter], call by call. The
    helpers [respondError], [respondJSON] and [respondOK] and the two cookie
    methods of the application are declared in other files; a
    call is recorded with its arguments ([None] for a nil pointer). *)
Inductive Effect :=
| respondError (err : option AppErr)
| respondJSON (status : Z) (v : Payload)
| respondOK
| AttachSessionCookies (meta : option TokenMetadata)
| DeleteSessionCookies.

(** [a.app]: the methods of the application layer that the handlers call.
    Each acts on the application's state (database, session store) and
    returns Go's pair of a value and a [*model.AppErr]. *)
Record App := {
  CreateUser : option User.t -> AppState -> (option User.t * option AppErr) * AppState;
  Login : option UserLogin -> AppState -> (option User.t * option AppErr) * AppState;
  IssueTokens : option User.t -> AppState -> (option TokenMetadata * option AppErr) * AppState;
  SaveAuth : Z -> option TokenMetadata -> AppState -> option AppErr * AppState;
  ExtractTokenMetadata : Request -> AppState -> (option AccessData * option AppErr) * AppState;
  DeleteAuth : string -> AppState -> (Z * option AppErr) * AppState;
  RefreshToken_ : option RefreshToken -> AppState -> (option TokenMetadata * option AppErr) * AppState;
  CreateProduct : Product -> FileHeader -> list FileHeader -> list ProductTag -> string ->
                  AppState -> (option Product * option AppErr) * AppState;
  PatchProduct : Z -> option ProductPatch -> AppState -> (option Product * option AppErr) * AppState;
  PatchProductTag : Z -> option ProductTagPatch -> AppState -> (option ProductTag * option AppErr) * AppState
}.

(** The decoders of package [model] that the handlers call on the body, and
    [model.SchemaDecoder.Decode] on the values of a multipart form. *)
Record Decoders := {
  UserFromJSON : string -> option User.t * option error;
  UserLoginFromJSON : string -> option UserLogin * option error;
  RefreshTokenFromJSON : string -> option RefreshToken * option error;
  ProductPatchFromJSON : string -> option ProductPatch * option error;
  ProductTagPatchFromJSON : string -> option ProductTagPatch * option error;
  SchemaDecode : gmap string (list string) -> Product * option error
}.

(** *** The handler monad *)

(** The world a handler runs in: the application's state and the calls made
    on the response writer so far, oldest first. *)
Record World := { app_state : AppState; sent : list Effect }.

(** A handler step returns a value or panics (a Go runtime error, with its
    message), and leaves a world. *)
Definition M (A : Type) : Type := World -> (A + string) * World.

Definition ret {A : Type} (a : A) : M A := fun w => (inl a, w).

Definition bind {A B : Type} (c : M A) (k : A -> M B) : M B :=
  fun w => match c w with
           | (inl a, w') => k a w'
           | (inr msg, w') => (inr msg, w')
           end.

Definition panic {A : Type} (msg : string) : M A := fun w => (inr msg, w).

(** A call on the response writer. *)
Definition emit (e : Effect) : M unit :=
  fun w => (inl tt, {| app_state := app_state w; sent := sent w ++ [e] |}).

(** A call of a method of [a.app]. *)
Definition call {A : Type} (f : AppState -> A * AppState) : M A :=
  fun w => let '(a, s) := f (app_state w) in (inl a, {| app_state := s; sent := sent w |}).

(** [p.f] on a pointer: a nil pointer panics. *)
Definition deref {A : Type} (p : option A) : M A :=
  match p with
  | Some a => ret a
  | None => panic "invalid memory address or nil pointer dereference"
  end.

(** [l[i]] on a slice: out of range panics. *)
Definition index {A : Type} (l : list A) (i : nat) : M A :=
  match l !! i with
  | Some a => ret a
  | None => panic "index out of range"
  end.

(** [p != nil] *)
Definition is_Some_b {A : Type} (p : option A) : bool :=
  match p with Some _ => true | None => false end.

(** [if cond { c }], without [return]. *)
Definition when (cond : bool) (c : M unit) : M unit :=
  if cond then c else ret tt.

(** The monad's operations under stdpp's notations: [x ← c; k] binds,
    [c ;; k] sequences. *)
#[local] Instance M_ret : MRet M := @ret.
#[local] Instance M_bind : MBind M := fun A B k c => bind c k.

Variable app : App.
Variable dec : Decoders.

(** The error every handler answers to a body or a parameter it cannot
    decode: [model.NewAppErr(op, model.ErrInternal,
    locale.GetUserLocalizer("en"), msg, http.StatusInternalServerError, nil)]. *)
Definition decodeErr (op : string) (msg : Message) : option AppErr :=
  Some (NewAppErr op ErrInternal (GetUserLocalizer "en") msg StatusInternalServerError None).

(** *** api/v1/user.go *)

(** [func (a *API) createUser(w http.ResponseWriter, r *http.Request)] *)
Definition createUser (r : Request) : M unit :=
  let '(u, e) := UserFromJSON dec (Body r) in
  if is_Some_b e then emit (respondError (decodeErr "createUser" msgUserFromJSON))
  else
    '(user, err) ← call (CreateUser app u);
    if is_Some_b err then emit (respondError err)
    else
      '(tokenMeta, err) ← call (IssueTokens app user);
      when (is_Some_b err) (emit (respondError err)) ;;
      uid ← deref (User.ID <$> user);
      err ← call (SaveAuth app uid tokenMeta);
      when (is_Some_b err) (emit (respondError err)) ;;
      emit (AttachSessionCookies tokenMeta) ;;
      emit (respondJSON StatusCreated (UserJSON user)).

(** [func (a *API) login(w http.ResponseWriter, r *http.Request)] *)
Definition login (r : Request) : M unit :=
  let '(u, e) := UserLoginFromJSON dec (Body r) in
  if is_Some_b e then emit (respondError (decodeErr "login" msgUserFromJSON))
  else
    '(user, err) ← call (Login app u);
    if is_Some_b err then emit (respondError err)
    else
      '(tokenMeta, err) ← call (IssueTokens app user);
      when (is_Some_b err) (emit (respondError err)) ;;
      uid ← deref (User.ID <$> user);
      err ← call (SaveAuth app uid tokenMeta);
      when (is_Some_b err) (emit (respondError err)) ;;
      emit (AttachSessionCookies tokenMeta) ;;
      emit (respondJSON StatusOK (UserJSON user)).

(** [func (a *API) logout(w http.ResponseWriter, r *http.Request)] *)
Definition logout (r : Request) : M unit :=
  emit DeleteSessionCookies ;;
  '(ad, err) ← call (ExtractTokenMetadata app r);
  if is_Some_b err then emit (respondError err)
  else
    uuid ← deref (AccessUUID <$> ad);
    '(deleted, err) ← call (DeleteAuth app uuid);
    if is_Some_b err || (deleted =? 0) then emit (respondError err)
    else emit respondOK.

(** [func (a *API) refresh(w http.ResponseWriter, r *http.Request)] *)
Definition refresh (r : Request) : M unit :=
  let '(rt, e) := RefreshTokenFromJSON dec (Body r) in
  if is_Some_b e then emit (respondError (decodeErr "refresh" msgRefreshTokenFromJSON))
  else
    '(meta, err) ← call (RefreshToken_ app rt);
    if is_Some_b err then emit (respondError err)
    else
      emit (AttachSessionCookies meta) ;;
      emit respondOK.

(** *** the product routes *)

(** The loop of [createProduct] over the tag ids: [strconv.ParseInt] on
    each, in order; [None] at the first one that does not parse (the loop
    then answers an error and returns). *)
Fixpoint parse_tags (tagids : list string) : option (list ProductTag) :=
  match tagids with
  | [] => Some []
  | tid :: rest =>
      match strconv.ParseInt tid with
      | (_, Some _) => None
      | (id, None) =>
          match parse_tags rest with
          | Some tags => Some ({| TagID := Some id |} :: tags)
          | None => None
          end
      end
  end.

(** [func (a *API) createProduct(w http.ResponseWriter, r *http.Request)].
    [model.SchemaDecoder.IgnoreUnknownKeys(true)] configures the decoder and
    is part of what [SchemaDecode] stands for. *)
Definition createProduct (r : Request) : M unit :=
  if is_Some_b (ParseMultipartForm r) then
    emit (respondError (decodeErr "createProduct" msgProductAvatarMultipart))
  else
    mpf ← deref (MultipartForm r);
    let '(p, err) := SchemaDecode dec (Value mpf) in
    if is_Some_b err then
      emit (respondError (decodeErr "createProduct" msgProductAvatarMultipart))
    else
      let tagids := index_map (Value mpf) "tags" in
      let headers := index_map (File mpf) "images" in
      fh ← index (index_map (File mpf) "image") 0;
      properties ← index (index_map (Value mpf) "properties") 0;
      match parse_tags tagids with
      | None => emit (respondError (decodeErr "createProduct" msgProductAvatarMultipart))
      | Some tags =>
          '(product, pErr) ← call (CreateProduct app p fh headers tags properties);
          if is_Some_b pErr then emit (respondError pErr)
          else emit (respondJSON StatusCreated (ProductJSON product))
      end.

(** [func (a *API) patchProduct(w http.ResponseWriter, r *http.Request)].
    The variable [err] is the one of [strconv.ParseInt], assigned again by
    [model.ProductPatchFromJSON]; the last test reads it, not [pErr]. *)
Definition patchProduct (r : Request) : M unit :=
  let '(pid, err) := strconv.ParseInt (URLParam r "product_id") in
  if is_Some_b err then emit (respondError (decodeErr "patchProduct" msgURLParamErr))
  else
    let '(patch, err) := ProductPatchFromJSON dec (Body r) in
    if is_Some_b err then emit (respondError (decodeErr "patchProduct" msgProductPatchFromJSON))
    else
      '(uprod, pErr) ← call (PatchProduct app pid patch);
      if is_Some_b err then emit (respondError pErr)
      else emit (respondJSON StatusOK (ProductJSON uprod)).

(** [func (a *API) patchProductTag(w http.ResponseWriter, r *http.Request)],
    the sibling of [patchProduct]; its last test reads [pErr]. *)
Definition patchProductTag (r : Request) : M unit :=
  let '(tid, err) := strconv.ParseInt (URLParam r "tag_id") in
  if is_Some_b err then emit (respondError (decodeErr "patchProductTag" msgURLParamErr))
  else
    let '(patch, err) := ProductTagPatchFromJSON dec (Body r) in
    if is_Some_b err then emit (respondError (decodeErr "patchProductTag" msgProductPatchFromJSON))
    else
      '(utag, pErr) ← call (PatchProductTag app tid patch);
      if is_Some_b pErr then emit (respondError pErr)
      else emit (respondJSON StatusOK (ProductTagJSON utag)).

(** A handler run on a fresh response writer. *)
Definition serve (h : Request -> M unit) (r : Request) (s : AppState) : (unit + string) * World :=
  h r {| app_state := s; sent := [] |}.

End Handlers.

End apiv1.

(* ===================================================================== *)
(** ** The session/token flow *)
(* ===================================================================== *)

(** The application layer behind [a.app.IssueTokens], [SaveAuth],
    [ExtractTokenMetadata], [DeleteAuth] and [RefreshToken] lives in package
    [app]; the handlers above only call it. This module follows the
    specification of that layer, component by component. *)
Module auth.

(** Modelled from the spec: Identity, an opaque numeric identifier of a
    user (the data model). *)
Definition Identity := Z.

(** Modelled from the spec: the unique identifier a token carries. *)
Definition UUID := string.

(** Modelled from the spec: timestamps and TTLs, in seconds. *)
Definition Timestamp := Z.

(** Modelled from the spec: the error kinds of the error handling design. *)
Inductive Error :=
| SigningError
| PersistenceError
| InvalidSignature
| Expired
| RevokedOrUnknown
| NotFound.

(** Modelled from the spec: a contract's result, a value or an error. *)
Inductive Result (A : Type) :=
| Ok (a : A)
| Err (e : Error).
Arguments Ok {A} a.
Arguments Err {A} e.

(** Modelled from the spec: what a signed token encodes, the identity, the
    token's identifier and its expiry (the Token Issuer's contract). *)
Record Claims := { identity : Identity; uuid : UUID; expiry : Timestamp }.

(** Modelled from the spec: an expiry has elapsed once the current time is
    past it. *)
Definition elapsed (exp now : Timestamp) : bool := exp <? now.

Section Flow.
Context {Secret Signature : Type} `{EqDecision Signature}.

(** Modelled from the spec: the signing primitive and its configuration, a
    secret per token class, a short TTL for access tokens and a long one for
    refresh tokens. [sign] gives no signature when the signing operation
    errors. *)
Record Config := {
  sign : Secret -> Claims -> option Signature;
  accessSecret : Secret;
  refreshSecret : Secret;
  accessTTL : Z;
  refreshTTL : Z
}.

(** Modelled from the spec: a signed token, read as its parser reads it, the
    claims and the signature over them. *)
Record Token := { claims : Claims; signature : Signature }.

(** Modelled from the spec: TokenPair (the data model). *)
Record TokenPair := {
  accessToken : Token;
  accessUUID : UUID;
  accessExpiry : Timestamp;
  refreshToken : Token;
  refreshUUID : UUID;
  refreshExpiry : Timestamp
}.

Variable cfg : Config.

(** Modelled from the spec: the Token Issuer behind [a.app.IssueTokens],
    [IssueTokens(identity)] of section 4.1. The two
    identifiers it generates at random are its arguments [au] and [ru], the
    clock is [now]. It fails with [SigningError] when signing errors. *)
Definition IssueTokens (who : Identity) (now : Timestamp) (au ru : UUID) : Result TokenPair :=
  let ac := {| identity := who; uuid := au; expiry := now + accessTTL cfg |} in
  let rc := {| identity := who; uuid := ru; expiry := now + refreshTTL cfg |} in
  match sign cfg (accessSecret cfg) ac, sign cfg (refreshSecret cfg) rc with
  | Some sa, Some sr =>
      Ok {| accessToken := {| claims := ac; signature := sa |};
            accessUUID := au;
            accessExpiry := expiry ac;
            refreshToken := {| claims := rc; signature := sr |};
            refreshUUID := ru;
            refreshExpiry := expiry rc |}
  | _, _ => Err SigningError
  end.

(** Modelled from the spec: the backing medium of the Session Store, a
    key-value store with an expiry per key; it may be unavailable
    (a backing-store failure). *)
Record Medium := {
  entries : gmap UUID (Identity * Timestamp);
  available : bool
}.

(** Modelled from the spec: the medium's native per-key expiry. The entry
    under a key, unless its expiry has elapsed. *)
Definition live (m : Medium) (now : Timestamp) (u : UUID) : option Identity :=
  match entries m !! u with
  | Some (who, exp) => if elapsed exp now then None else Some who
  | None => None
  end.

(** Modelled from the spec: the Session Store behind [a.app.SaveAuth],
    [Save(identity, TokenPair)] of section 4.2:
    writes the access entry and the refresh entry, each with the expiry of
    its token; [PersistenceError] on backing-store failure. *)
Definition Save (who : Identity) (p : TokenPair) (m : Medium) : Result unit * Medium :=
  if available m then
    (Ok tt,
     {| entries := <[refreshUUID p := (who, refreshExpiry p)]>
                     (<[accessUUID p := (who, accessExpiry p)]> (entries m));
        available := true |})
  else (Err PersistenceError, m).

(** Modelled from the spec: the Session Store behind [a.app.DeleteAuth],
    [Delete(uuid)] of section 4.2: removes one
    entry by its identifier and returns the count deleted, 0 and no error
    when the identifier was already absent or expired. *)
Definition Delete (u : UUID) (now : Timestamp) (m : Medium) : Result Z * Medium :=
  if available m then
    (Ok (match live m now u with Some _ => 1 | None => 0 end),
     {| entries := delete u (entries m); available := true |})
  else (Err PersistenceError, m).

(** Modelled from the spec: the Session Store's [Lookup(uuid)] of section
    4.2: fails with
    [NotFound] if absent or expired; the specification gives it no other
    failure, so an unavailable medium resolves nothing. *)
Definition Lookup (u : UUID) (now : Timestamp) (m : Medium) : Result Identity :=
  if available m then
    match live m now u with
    | Some who => Ok who
    | None => Err NotFound
    end
  else Err NotFound.

(** Modelled from the spec: the signature check of a token against a
    secret, by signing its claims again. *)
Definition valid_signature (secret : Secret) (t : Token) : bool :=
  match sign cfg secret (claims t) with
  | Some s => bool_decide (s = signature t)
  | None => false
  end.

(** Modelled from the spec: the Token Verifier behind
    [a.app.ExtractTokenMetadata], [Extract(rawToken)] of section 4.3, against
    a given secret. The three checks of the contract are the signature
    ([InvalidSignature]), the expiry ([Expired]) and the Session Store lookup
    ([RevokedOrUnknown]). For a token that fails both of the first two the
    testable properties settle the answer: an elapsed expiry always fails
    [Expired], regardless of signature validity; so the expiry claim is read
    first. *)
Definition ExtractWith (secret : Secret) (raw : Token) (now : Timestamp) (m : Medium)
  : Result (Identity * UUID) :=
  if elapsed (expiry (claims raw)) now then Err Expired
  else if negb (valid_signature secret raw) then Err InvalidSignature
  else
    match Lookup (uuid (claims raw)) now m with
    | Ok _ => Ok (identity (claims raw), uuid (claims raw))
    | Err _ => Err RevokedOrUnknown
    end.

(** Modelled from the spec: [Extract], the verifier on the access-token
    secret. *)
Definition Extract (raw : Token) (now : Timestamp) (m : Medium) : Result (Identity * UUID) :=
  ExtractWith (accessSecret cfg) raw now m.

(** Modelled from the spec: the Refresh Flow behind [a.app.RefreshToken],
    [Refresh(rawRefreshToken)] of section 4.4:
    1. verify the refresh token as [Extract] does, against the refresh secret;
    2. issue a new pair for the identity;
    3. delete the session entry of the old refresh identifier;
    4. save the new pair.
    A failure at any step fails the refresh. *)
Definition Refresh (raw : Token) (now : Timestamp) (au ru : UUID) (m : Medium)
  : Result TokenPair * Medium :=
  match ExtractWith (refreshSecret cfg) raw now m with
  | Err e => (Err e, m)
  | Ok (who, old) =>
      match IssueTokens who now au ru with
      | Err e => (Err e, m)
      | Ok fresh =>
          match Delete old now m with
          | (Err e, m1) => (Err e, m1)
          | (Ok _, m1) =>
              match Save who fresh m1 with
              | (Err e, m2) => (Err e, m2)
              | (Ok _, m2) => (Ok fresh, m2)
              end
          end
      end
  end.

(** Modelled from the spec: what may happen to the Session Store between
    two requests, the flow's own operations on behalf of any client, and the
    medium failing or coming back (section 5: the store is the only state
    shared between requests). *)
Inductive Op :=
| OpSave (who : Identity) (p : TokenPair)
| OpDelete (u : UUID) (now : Timestamp)
| OpRefresh (raw : Token) (now : Timestamp) (au ru : UUID)
| OpOutage
| OpRecover.

Definition step (m : Medium) (op : Op) : Medium :=
  match op with
  | OpSave who p => snd (Save who p m)
  | OpDelete u now => snd (Delete u now m)
  | OpRefresh raw now au ru => snd (Refresh raw now au ru m)
  | OpOutage => {| entries := entries m; available := false |}
  | OpRecover => {| entries := entries m; available := true |}
  end.

Definition run (ops : list Op) (m : Medium) : Medium := fold_left step ops m.

(** Modelled from the spec: the identifiers an operation writes into the
    store. Generated identifiers are unique (section 4.1): an operation that
    comes after [u] was issued writes identifiers other than [u]. *)
Definition writes (op : Op) : list UUID :=
  match op with
  | OpSave _ p => [accessUUID p; refreshUUID p]
  | OpRefresh _ _ au ru => [au; ru]
  | _ => []
  end.

End Flow.

Arguments Config : clear implicits.
Arguments Token : clear implicits.
Arguments TokenPair : clear implicits.
Arguments Op : clear implicits.

End auth.

(* ===================================================================== *)
(** ** package apiv1: the other handlers of the user and product routes *)
(* ===================================================================== *)

(** The handlers of [api/v1/user.go] and of the product routes that answer
    with more kinds of values than the ones above: they get a response type
    of their own, and the same monad over it. *)
Module handlers.
Import model.

(** The values these handlers only carry between the decoders, the
    application layer and the response. *)
Class Values := {
  Ctx : Type;                (* context.Context *)
  UserPatch : Type;
  Address : Type;
  AddressPatch : Type;
  AddressType : Type;
  File : Type;               (* multipart.File *)
  FileHeader : Type;         (* *multipart.FileHeader *)
  AvatarURL : Type;
  AvatarPublicID : Type;
  Product : Type;
  ProductTags : Type;
  ProductImages : Type;
  ProductReviews : Type;
  ProductTag : Type;
  ProductImage : Type;
  ProductImagePatch : Type;
  ProductProperties : Type;
  SearchResults : Type;
  Pages : Type               (* the paginator of utils/pagination *)
}.

Definition error := strconv.error.

Definition msgInvalidToken := {| MessageID := "model.access_token_verify.json.app_error"; Other := "token is invalid or has already expired" |}.
Definition msgInvalidEmail := {| MessageID := "api.user.sendUserVerificationEmail.email.app_error"; Other := "invalid email provided" |}.
Definition msgInvalidPassword := {| MessageID := "api.user.resetUserPassword.password.app_error"; Other := "invalid password provided" |}.
Definition msgUserURLParams := {| MessageID := "api.user.deleteUser.app_error"; Other := "invalid user_id url param" |}.
Definition msgAddressFromJSON := {| MessageID := "api.user.deleteUser.app_error"; Other := "could not parse address json data" |}.
Definition msgAddressPatchFromJSON := {| MessageID := "api.user.deleteUser.app_error"; Other := "could not parse address patch data" |}.
Definition msgDeleteUserAddress := {| MessageID := "api.user.deleteUser.app_error"; Other := "could not delete address" |}.
Definition msgUserAvatarMultipart := {| MessageID := "api.user.upload_user_avatar.app_error"; Other := "could not parse avatar multipart file" |}.
Definition msgUpdateProfile := {| MessageID := "api.user.update_profile.app_error"; Other := "could not update user profile" |}.
Definition msgURLParamErr := apiv1.msgURLParamErr.
Definition msgProductPatchFromJSON := apiv1.msgProductPatchFromJSON.

(** [model.NewAppErr(op, code, locale.GetUserLocalizer("en"), msg, status, nil)] *)
Definition appErr (op : string) (code : ErrCode) (msg : Message) (status : Z) : option AppErr :=
  Some (NewAppErr op code (GetUserLocalizer "en") msg status None).

Section Handlers.
Context `{Values} {AppState : Type}.

(** [multipart.Form] *)
Record Form := {
  Value : gmap string (list string);
  File_ : gmap string (list FileHeader)
}.

(** [*http.Request], as these handlers read it: the body, the context, the
    URL parameters of the route (chi), the query of the URL, and what
    [r.ParseMultipartForm] makes of the body. *)
Record Request := {
  Body : string;
  Context_ : Ctx;
  URLParams : gmap string string;
  Query : gmap string (list string);
  ParseMultipartForm : option error;
  MultipartForm : option Form
}.

(** [chi.URLParam(r, key)] *)
Definition URLParam (r : Request) (key : string) : string :=
  default "" (URLParams r !! key).

(** [m[key]] on a [map[string]string]: the empty string for an absent key. *)
Definition get (m : gmap string string) (key : string) : string :=
  default "" (m !! key).

(** [url.Values.Get(key)]: the first value under the key, or the empty
    string. *)
Definition QueryGet (q : gmap string (list string)) (key : string) : string :=
  match default [] (q !! key) with
  | v :: _ => v
  | [] => ""
  end.

(** What a handler sends to [respondJSON]. *)
Inductive Payload :=
| UserJSON (u : option User.t)
| AddressJSON (a : option Address)
| AvatarJSON (avatar_url : AvatarURL) (avatar_public_id : AvatarPublicID)
| ProductJSON (p : option Product)
| ProductTagsJSON (tags : ProductTags)
| ProductImagesJSON (imgs : ProductImages)
| ProductReviewsJSON (reviews : ProductReviews)
| ProductTagJSON (tag : option ProductTag)
| ProductImageJSON (img : option ProductImage)
| ProductPropertiesJSON (props : ProductProperties)
| SearchResultsJSON (res : SearchResults)
| PagesJSON (pages : Pages).

(** The calls on the [http.ResponseWriter]. *)
Inductive Effect :=
| respondError (err : option AppErr)
| respondJSON (status : Z) (v : Payload)
| respondOK.

(** [a.app]: the methods of the application layer that these handlers
    call. *)
Record App := {
  GetUserIDFromContext : Ctx -> Z;
  GetUserByID : Z -> AppState -> (option User.t * option AppErr) * AppState;
  GetUserByEmail : string -> AppState -> (option User.t * option AppErr) * AppState;
  SendVerificationEmail : option User.t -> string -> AppState -> option AppErr * AppState;
  VerifyUserEmail : string -> AppState -> option AppErr * AppState;
  SendPasswordResetEmail : string -> AppState -> option AppErr * AppState;
  ResetUserPassword : string -> string -> AppState -> option AppErr * AppState;
  PatchUserProfile : Z -> option UserPatch -> AppState -> (option User.t * option AppErr) * AppState;
  ChangeUserPassword : Z -> string -> string -> AppState -> option AppErr * AppState;
  DeleteUser : Z -> AppState -> option AppErr * AppState;
  UploadUserAvatar : Z -> File -> FileHeader ->
                     AppState -> (AvatarURL * AvatarPublicID * option AppErr) * AppState;
  DeleteUserAvatar : Z -> string -> AppState -> option AppErr * AppState;
  CreateUserAddress : option Address -> Z -> AddressType ->
                      AppState -> (option Address * option AppErr) * AppState;
  GetUserAddress : Z -> AppState -> (option Address * option AppErr) * AppState;
  PatchUserAddress : Z -> option AddressPatch -> AppState -> (option Address * option AppErr) * AppState;
  DeleteUserAddress : Z -> AppState -> option AppErr * AppState;
  DeleteProduct : Z -> AppState -> option AppErr * AppState;
  GetProduct : Z -> AppState -> (option Product * option AppErr) * AppState;
  GetProducts : gmap string (list string) -> Z -> Z ->
                AppState -> (list Product * option AppErr) * AppState;
  GetProductTags : Z -> AppState -> (ProductTags * option AppErr) * AppState;
  GetProductImages : Z -> AppState -> (ProductImages * option AppErr) * AppState;
  GetProductReviews : Z -> AppState -> (ProductReviews * option AppErr) * AppState;
  GetProductTag : Z -> AppState -> (option ProductTag * option AppErr) * AppState;
  GetImage : Z -> AppState -> (option ProductImage * option AppErr) * AppState;
  PatchProductImage : Z -> option ProductImagePatch ->
                      AppState -> (option ProductImage * option AppErr) * AppState;
  DeleteProductTag : Z -> AppState -> option AppErr * AppState;
  DeleteProductImage : Z -> AppState -> option AppErr * AppState;
  GetProductProperties : AppState -> (ProductProperties * option AppErr) * AppState;
  GetFeaturedProducts : Z -> Z -> AppState -> (list Product * option AppErr) * AppState;
  SearchProducts : string -> AppState -> (SearchResults * option AppErr) * AppState
}.

(** The functions of packages [model], [pagination] and [mime/multipart]
    that these handlers call. [Open] is [( *multipart.FileHeader).Open], which
    returns a file or an error. *)
Record Lib := {
  MapStrStrFromJSON : string -> gmap string string;
  NormalizeEmail : string -> string;
  IsValidEmail : string -> bool;
  UserPatchFromJSON : string -> option UserPatch * option error;
  AddressFromJSON : string -> option Address * option error;
  AddressPatchFromJSON : string -> option AddressPatch * option error;
  ProductImagePatchFromJSON : string -> option ProductImagePatch * option error;
  PhysicalAddress : AddressType;
  TotalCount : Product -> Z;
  NewFromRequest : Request -> Pages;
  Limit : Pages -> Z;
  Offset : Pages -> Z;
  SetData : Pages -> list Product -> Z -> Pages;
  Open : FileHeader -> File + error
}.

(** *** The handler monad, over this response type *)

Record World := { app_state : AppState; sent : list Effect }.

Definition M (A : Type) : Type := World -> (A + string) * World.

Definition ret {A : Type} (a : A) : M A := fun w => (inl a, w).

Definition bind {A B : Type} (c : M A) (k : A -> M B) : M B :=
  fun w => match c w with
           | (inl a, w') => k a w'
           | (inr msg, w') => (inr msg, w')
           end.

Definition panic {A : Type} (msg : string) : M A := fun w => (inr msg, w).

Definition emit (e : Effect) : M unit :=
  fun w => (inl tt, {| app_state := app_state w; sent := sent w ++ [e] |}).

Definition call {A : Type} (f : AppState -> A * AppState) : M A :=
  fun w => let '(a, s) := f (app_state w) in (inl a, {| app_state := s; sent := sent w |}).

Definition deref {A : Type} (p : option A) : M A :=
  match p with
  | Some a => ret a
  | None => panic "invalid memory address or nil pointer dereference"
  end.

Definition when (cond : bool) (c : M unit) : M unit :=
  if cond then c else ret tt.

Definition is_Some_b {A : Type} (p : option A) : bool := apiv1.is_Some_b p.

#[local] Instance M_ret : MRet M := @ret.
#[local] Instance M_bind : MBind M := fun A B k c => bind c k.

(** [r.FormFile(key)] after a successful [r.ParseMultipartForm]: the first
    file under the key, opened, with its header; [http.ErrMissingFile] when
    there is none. *)
Definition FormFile (lib : Lib) (r : Request) (key : string) : (File * FileHeader) + error :=
  match MultipartForm r with
  | Some mpf =>
      match default [] (File_ mpf !! key) with
      | fh :: _ =>
          match Open lib fh with
          | inl f => inl (f, fh)
          | inr err => inr err
          end
      | [] => inr "http: no such file"
      end
  | None => inr "http: no such file"
  end.

Variable app : App.
Variable lib : Lib.

Definition uid_of (r : Request) : Z := GetUserIDFromContext app (Context_ r).

(** *** api/v1/user.go *)

(** [func (a *API) currentUser(w http.ResponseWriter, r *http.Request)] *)
Definition currentUser (r : Request) : M unit :=
  let uid := uid_of r in
  '(user, err) ← call (GetUserByID app uid);
  if is_Some_b err then emit (respondError err)
  else emit (respondJSON StatusOK (UserJSON user)).

(** [func (a *API) sendVerificationEmail(w http.ResponseWriter, r *http.Request)] *)
Definition sendVerificationEmail (r : Request) : M unit :=
  let props := MapStrStrFromJSON lib (Body r) in
  let email := get props "email" in
  let email := NormalizeEmail lib email in
  if is_empty email || negb (IsValidEmail lib email) then
    emit (respondError (appErr "api.sendVerificationEmail" ErrInvalid msgInvalidEmail StatusBadRequest))
  else
    '(user, err) ← call (GetUserByEmail app email);
    if is_Some_b err then emit respondOK
    else
      err ← call (SendVerificationEmail app user email);
      if is_Some_b err then emit respondOK
      else emit respondOK.

(** [func (a *API) verifyUserEmail(w http.ResponseWriter, r *http.Request)] *)
Definition verifyUserEmail (r : Request) : M unit :=
  let props := MapStrStrFromJSON lib (Body r) in
  let token := get props "token" in
  if is_empty token then
    emit (respondError (appErr "api.sendVerificationEmail" ErrInvalid msgInvalidToken StatusBadRequest))
  else
    err ← call (VerifyUserEmail app token);
    if is_Some_b err then emit (respondError err)
    else emit respondOK.

(** [func (a *API) sendPasswordResetEmail(w http.ResponseWriter, r *http.Request)] *)
Definition sendPasswordResetEmail (r : Request) : M unit :=
  let props := MapStrStrFromJSON lib (Body r) in
  let email := get props "email" in
  let email := NormalizeEmail lib email in
  if is_empty email || negb (IsValidEmail lib email) then
    emit (respondError (appErr "api.sendPasswordResetEmail" ErrInvalid msgInvalidEmail StatusBadRequest))
  else
    err ← call (SendPasswordResetEmail app email);
    if is_Some_b err then emit (respondError err)
    else emit respondOK.

(** [func (a *API) resetUserPassword(w http.ResponseWriter, r *http.Request)] *)
Definition resetUserPassword (r : Request) : M unit :=
  let props := MapStrStrFromJSON lib (Body r) in
  let token := get props "token" in
  let newPassword := get props "password" in
  err ← call (ResetUserPassword app token newPassword);
  if is_Some_b err then emit (respondError err)
  else emit respondOK.

(** [func (a *API) updateProfile(w http.ResponseWriter, r *http.Request)] *)
Definition updateProfile (r : Request) : M unit :=
  let uid := uid_of r in
  let '(patch, err) := UserPatchFromJSON lib (Body r) in
  if is_Some_b err then
    emit (respondError (appErr "updateProfile" ErrInternal msgUpdateProfile StatusInternalServerError))
  else
    '(user, pErr) ← call (PatchUserProfile app uid patch);
    if is_Some_b pErr then emit (respondError pErr)
    else emit (respondJSON StatusOK (UserJSON user)).

(** [func (a *API) changeUserPassword(w http.ResponseWriter, r *http.Request)] *)
Definition changeUserPassword (r : Request) : M unit :=
  let uid := uid_of r in
  let props := MapStrStrFromJSON lib (Body r) in
  let oldPassword := get props "old_password" in
  let newPassword := get props "new_password" in
  let confirmPassword := get props "confirm_password" in
  if is_empty oldPassword || is_empty newPassword || is_empty confirmPassword
     || negb (String.eqb newPassword confirmPassword) then
    emit (respondError (appErr "api.changeUserPassword" ErrInvalid msgInvalidPassword StatusBadRequest))
  else
    err ← call (ChangeUserPassword app uid oldPassword newPassword);
    if is_Some_b err then emit (respondError err)
    else emit respondOK.

(** [func (a *API) getUser(w http.ResponseWriter, r *http.Request)] *)
Definition getUser (r : Request) : M unit :=
  let '(uid, e) := strconv.ParseInt (URLParam r "user_id") in
  if is_Some_b e then
    emit (respondError (appErr "getUser" ErrInternal msgUserURLParams StatusInternalServerError))
  else
    '(user, err) ← call (GetUserByID app uid);
    if is_Some_b err then emit (respondError err)
    else emit (respondJSON StatusOK (UserJSON user)).

(** [func (a *API) deleteUser(w http.ResponseWriter, r *http.Request)] *)
Definition deleteUser (r : Request) : M unit :=
  let '(uid, e) := strconv.ParseInt (URLParam r "user_id") in
  if is_Some_b e then
    emit (respondError (appErr "deleteUser" ErrInternal msgUserURLParams StatusInternalServerError))
  else
    err ← call (DeleteUser app uid);
    if is_Some_b err then emit (respondError err)
    else emit respondOK.

(** [func (a *API) uploadUserAvatar(w http.ResponseWriter, r *http.Request)];
    the deferred [f.Close()] does nothing to the response. *)
Definition uploadUserAvatar (r : Request) : M unit :=
  let uid := uid_of r in
  if is_Some_b (ParseMultipartForm r) then
    emit (respondError (appErr "uploadUserAvatar" ErrInternal msgUserAvatarMultipart StatusInternalServerError))
  else
    match FormFile lib r "avatar" with
    | inr err =>
        emit (respondError (appErr "uploadUserAvatar" ErrInternal msgUserAvatarMultipart StatusInternalServerError))
    | inl (f, fh) =>
        '(url, publicID, uErr) ← call (UploadUserAvatar app uid f fh);
        if is_Some_b uErr then emit (respondError uErr)
        else emit (respondJSON StatusCreated (AvatarJSON url publicID))
    end.

(** [func (a *API) deleteUserAvatar(w http.ResponseWriter, r *http.Request)];
    [*user.AvatarPublicID] reads through two pointers. *)
Definition deleteUserAvatar (r : Request) : M unit :=
  let uid := uid_of r in
  '(user, err) ← call (GetUserByID app uid);
  when (is_Some_b err) (emit (respondError err)) ;;
  u ← deref user;
  publicID ← deref (User.AvatarPublicID u);
  err ← call (DeleteUserAvatar app uid publicID);
  if is_Some_b err then emit (respondError err)
  else emit respondOK.

(** [func (a *API) createUserAddress(w http.ResponseWriter, r *http.Request)] *)
Definition createUserAddress (r : Request) : M unit :=
  let uid := uid_of r in
  let '(addr, e) := AddressFromJSON lib (Body r) in
  if is_Some_b e then
    emit (respondError (appErr "createUser" ErrInternal msgAddressFromJSON StatusInternalServerError))
  else
    '(address, err) ← call (CreateUserAddress app addr uid (PhysicalAddress lib));
    if is_Some_b err then emit (respondError err)
    else emit (respondJSON StatusCreated (AddressJSON address)).

(** [func (a *API) getUserAddress(w http.ResponseWriter, r *http.Request)] *)
Definition getUserAddress (r : Request) : M unit :=
  let '(addrID, e) := strconv.ParseInt (URLParam r "address_id") in
  if is_Some_b e then
    emit (respondError (appErr "getUserAddress" ErrInternal msgURLParamErr StatusInternalServerError))
  else
    '(address, err) ← call (GetUserAddress app addrID);
    if is_Some_b err then emit (respondError err)
    else emit (respondJSON StatusOK (AddressJSON address)).

(** [func (a *API) updateUserAddress(w http.ResponseWriter, r *http.Request)] *)
Definition updateUserAddress (r : Request) : M unit :=
  let '(addrID, e) := strconv.ParseInt (URLParam r "address_id") in
  if is_Some_b e then
    emit (respondError (appErr "updateUserAddress" ErrInternal msgURLParamErr StatusInternalServerError))
  else
    let '(patch, err) := AddressPatchFromJSON lib (Body r) in
    if is_Some_b err then
      emit (respondError (appErr "updateUserAddress" ErrInternal msgAddressPatchFromJSON StatusInternalServerError))
    else
      '(address, pErr) ← call (PatchUserAddress app addrID patch);
      if is_Some_b pErr then emit (respondError pErr)
      else emit (respondJSON StatusOK (AddressJSON address)).

(** [func (a *API) deleteUserAddress(w http.ResponseWriter, r *http.Request)] *)
Definition deleteUserAddress (r : Request) : M unit :=
  let '(addrID, e) := strconv.ParseInt (URLParam r "address_id") in
  if is_Some_b e then
    emit (respondError (appErr "deleteUserAddress" ErrInternal msgDeleteUserAddress StatusInternalServerError))
  else
    err ← call (DeleteUserAddress app addrID);
    if is_Some_b err then emit (respondError err)
    else emit respondOK.

(** *** the product routes *)

(** [func (a *API) deleteProduct(w http.ResponseWriter, r *http.Request)] *)
Definition deleteProduct (r : Request) : M unit :=
  let '(pid, err) := strconv.ParseInt (URLParam r "product_id") in
  if is_Some_b err then
    emit (respondError (appErr "deleteProduct" ErrInternal msgURLParamErr StatusInternalServerError))
  else
    err ← call (DeleteProduct app pid);
    if is_Some_b err then emit (respondError err)
    else emit respondOK.

(** [func (a *API) getProduct(w http.ResponseWriter, r *http.Request)] *)
Definition getProduct (r : Request) : M unit :=
  let '(pid, e) := strconv.ParseInt (URLParam r "product_id") in
  if is_Some_b e then
    emit (respondError (appErr "getProduct" ErrInternal msgURLParamErr StatusInternalServerError))
  else
    '(p, err) ← call (GetProduct app pid);
    if is_Some_b err then emit (respondError err)
    else emit (respondJSON StatusOK (ProductJSON p)).

(** The total that the two listing handlers give the paginator:
    [totalCount := -1; if len(products) > 0 { totalCount = products[0].TotalCount }] *)
Definition totalCount (products : list Product) : Z :=
  match products with
  | p :: _ => TotalCount lib p
  | [] => -1
  end.

(** [func (a *API) getProducts(w http.ResponseWriter, r *http.Request)] *)
Definition getProducts (r : Request) : M unit :=
  let filters := Query r in
  let pages := NewFromRequest lib r in
  '(products, err) ← call (GetProducts app filters (Limit lib pages) (Offset lib pages));
  if is_Some_b err then emit (respondError err)
  else
    let pages := SetData lib pages products (totalCount products) in
    emit (respondJSON StatusOK (PagesJSON pages)).

(** [func (a *API) getProductTags(w http.ResponseWriter, r *http.Request)] *)
Definition getProductTags (r : Request) : M unit :=
  let '(pid, e) := strconv.ParseInt (URLParam r "product_id") in
  if is_Some_b e then
    emit (respondError (appErr "getProductTags" ErrInternal msgURLParamErr StatusInternalServerError))
  else
    '(tags, err) ← call (GetProductTags app pid);
    if is_Some_b err then emit (respondError err)
    else emit (respondJSON StatusOK (ProductTagsJSON tags)).

(** [func (a *API) getProductImages(w http.ResponseWriter, r *http.Request)];
    the operation it names in its error is "getProduct". *)
Definition getProductImages (r : Request) : M unit :=
  let '(pid, e) := strconv.ParseInt (URLParam r "product_id") in
  if is_Some_b e then
    emit (respondError (appErr "getProduct" ErrInternal msgURLParamErr StatusInternalServerError))
  else
    '(imgs, err) ← call (GetProductImages app pid);
    if is_Some_b err then emit (respondError err)
    else emit (respondJSON StatusOK (ProductImagesJSON imgs)).

(** [func (a *API) getProductReviews(w http.ResponseWriter, r *http.Request)] *)
Definition getProductReviews (r : Request) : M unit :=
  let '(pid, e) := strconv.ParseInt (URLParam r "product_id") in
  if is_Some_b e then
    emit (respondError (appErr "getProductReviews" ErrInternal msgURLParamErr StatusInternalServerError))
  else
    '(reviews, err) ← call (GetProductReviews app pid);
    if is_Some_b err then emit (respondError err)
    else emit (respondJSON StatusOK (ProductReviewsJSON reviews)).

(** [func (a *API) getSingleTag(w http.ResponseWriter, r *http.Request)] *)
Definition getSingleTag (r : Request) : M unit :=
  let '(tid, e) := strconv.ParseInt (URLParam r "tag_id") in
  if is_Some_b e then
    emit (respondError (appErr "getSingleTag" ErrInternal msgURLParamErr StatusInternalServerError))
  else
    '(tag, err) ← call (GetProductTag app tid);
    if is_Some_b err then emit (respondError err)
    else emit (respondJSON StatusOK (ProductTagJSON tag)).

(** [func (a *API) getSingleImage(w http.ResponseWriter, r *http.Request)] *)
Definition getSingleImage (r : Request) : M unit :=
  let '(imgID, e) := strconv.ParseInt (URLParam r "image_id") in
  if is_Some_b e then
    emit (respondError (appErr "getSingleImage" ErrInternal msgURLParamErr StatusInternalServerError))
  else
    '(img, err) ← call (GetImage app imgID);
    if is_Some_b err then emit (respondError err)
    else emit (respondJSON StatusOK (ProductImageJSON img)).

(** [func (a *API) patchProductImage(w http.ResponseWriter, r *http.Request)] *)
Definition patchProductImage (r : Request) : M unit :=
  let '(imgID, err) := strconv.ParseInt (URLParam r "image_id") in
  if is_Some_b err then
    emit (respondError (appErr "patchProductImage" ErrInternal msgURLParamErr StatusInternalServerError))
  else
    let '(patch, err) := ProductImagePatchFromJSON lib (Body r) in
    if is_Some_b err then
      emit (respondError (appErr "patchProductImage" ErrInternal msgProductPatchFromJSON StatusInternalServerError))
    else
      '(uprod, pErr) ← call (PatchProductImage app imgID patch);
      if is_Some_b pErr then emit (respondError pErr)
      else emit (respondJSON StatusOK (ProductImageJSON uprod)).

(** [func (a *API) deleteProductTag(w http.ResponseWriter, r *http.Request)] *)
Definition deleteProductTag (r : Request) : M unit :=
  let '(tid, err) := strconv.ParseInt (URLParam r "tag_id") in
  if is_Some_b err then
    emit (respondError (appErr "deleteProductTag" ErrInternal msgURLParamErr StatusInternalServerError))
  else
    err ← call (DeleteProductTag app tid);
    if is_Some_b err then emit (respondError err)
    else emit respondOK.

(** [func (a *API) deleteProductImage(w http.ResponseWriter, r *http.Request)] *)
Definition deleteProductImage (r : Request) : M unit :=
  let '(imgID, err) := strconv.ParseInt (URLParam r "image_id") in
  if is_Some_b err then
    emit (respondError (appErr "deleteProductImage" ErrInternal msgURLParamErr StatusInternalServerError))
  else
    err ← call (DeleteProductImage app imgID);
    if is_Some_b err then emit (respondError err)
    else emit respondOK.

(** [func (a *API) getProductProperties(w http.ResponseWriter, r *http.Request)] *)
Definition getProductProperties (r : Request) : M unit :=
  '(props, err) ← call (GetProductProperties app);
  if is_Some_b err then emit (respondError err)
  else emit (respondJSON StatusOK (ProductPropertiesJSON props)).

(** [func (a *API) getFeaturedProducts(w http.ResponseWriter, r *http.Request)] *)
Definition getFeaturedProducts (r : Request) : M unit :=
  let pages := NewFromRequest lib r in
  '(featured, err) ← call (GetFeaturedProducts app (Limit lib pages) (Offset lib pages));
  if is_Some_b err then emit (respondError err)
  else
    let pages := SetData lib pages featured (totalCount featured) in
    emit (respondJSON StatusOK (PagesJSON pages)).

(** [func (a *API) searchProducts(w http.ResponseWriter, r *http.Request)] *)
Definition searchProducts (r : Request) : M unit :=
  let query := QueryGet (Query r) "q" in
  '(searchResults, err) ← call (SearchProducts app query);
  if is_Some_b err then emit (respondError err)
  else emit (respondJSON StatusOK (SearchResultsJSON searchResults)).

(** A handler run on a fresh response writer. *)
Definition serve (h : Request -> M unit) (r : Request) (s : AppState) : (unit + string) * World :=
  h r {| app_state := s; sent := [] |}.

End Handlers.

End handlers.

(* ===================================================================== *)
(** ** Fixtures: a small application and a toy signer *)
(* ===================================================================== *)

(** A small application to run the handlers on: one registered user, a
    list of live session identifiers and a session store that can be down,
    a product catalogue of one product. *)
Module Demo.
Import model apiv1.

Definition values : Values := {|
  UserLogin := string;
  RefreshToken := string;
  TokenMetadata := string;
  Product := string;
  ProductPatch := string;
  ProductTagPatch := string;
  FileHeader := string
|}.
#[local] Existing Instance values.

Record State := { store_up : bool; sessions : list string }.

Definition ana : User.t := {|
  User.ID := 7; User.FirstName := "Ana"; User.LastName := "B"; User.Username := "ana";
  User.Email := "ana@example.com"; User.Password := "hash"; User.Role := "user";
  User.Gender := ""; User.Locale := "en"; User.AvatarURL := "";
  User.AvatarPublicID := None; User.Active := true; User.EmailVerified := true;
  User.FailedAttempts := 0; User.LastLoginAt := time.zero; User.CreatedAt := time.zero;
  User.UpdatedAt := time.zero; User.DeletedAt := time.zero |}.

Definition appErr (op : string) (code : ErrCode) (text : string) (status : Z) : AppErr :=
  NewAppErr op code "en" {| MessageID := op; Other := text |} status None.

Definition errCredentials := appErr "Login" ErrInvalid "invalid credentials" 401.
Definition errSaveAuth := appErr "SaveAuth" ErrInternal "could not save the session" 500.
Definition errDeleteAuth := appErr "DeleteAuth" ErrInternal "could not delete the session" 500.
Definition errToken := appErr "ExtractTokenMetadata" ErrInvalid "token is invalid or has already expired" 401.
Definition errPatch := appErr "PatchProduct" ErrInternal "could not patch product" 500.

Definition app : App (AppState := State) := {|
  CreateUser u s := (u, None, s);
  Login u s :=
    match u with
    | Some "ana@example.com" => (Some ana, None, s)
    | _ => (None, Some errCredentials, s)
    end;
  IssueTokens user s := (Some "uuid-1", None, s);
  SaveAuth uid meta s :=
    if store_up s
    then (None, {| store_up := true; sessions := default "" meta :: sessions s |})
    else (Some errSaveAuth, s);
  ExtractTokenMetadata r s :=
    match Cookies r !! "access_token" with
    | Some tok => (Some {| AccessUUID := tok |}, None, s)
    | None => (None, Some errToken, s)
    end;
  DeleteAuth uuid s :=
    if store_up s
    then (Z.of_nat (length (List.filter (String.eqb uuid) (sessions s))), None,
          {| store_up := true;
             sessions := List.filter (fun u => negb (String.eqb uuid u)) (sessions s) |})
    else (0, Some errDeleteAuth, s);
  RefreshToken_ rt s := (Some "uuid-2", None, s);
  CreateProduct p fh headers tags properties s := (Some p, None, s);
  PatchProduct pid patch s :=
    if pid =? 1 then (Some (default "" patch), None, s) else (Some "", Some errPatch, s);
  PatchProductTag tid patch s := (Some {| TagID := Some tid |}, None, s)
|}.

(** Decoders that take every body as it is. *)
Definition dec : Decoders := {|
  UserFromJSON body := (Some ana, None);
  UserLoginFromJSON body := (Some body, None);
  RefreshTokenFromJSON body := (Some body, None);
  ProductPatchFromJSON body := (Some body, None);
  ProductTagPatchFromJSON body := (Some body, None);
  SchemaDecode values := ("product", None)
|}.

Definition request (body : string) : Request := {|
  Body := body; Cookies := ∅; URLParams := ∅;
  ParseMultipartForm := None; MultipartForm := None |}.

(** A brand that meets every criterion, and one that was given an id and
    lost its name and its update time. *)
Definition acme : ProductBrand.t := {|
  ProductBrand.ID := 0; ProductBrand.ProductID := 0;
  ProductBrand.Name := "Acme"; ProductBrand.Slug := "acme";
  ProductBrand.Type_ := "retail"; ProductBrand.Description := "tools";
  ProductBrand.Email := "shop@acme.test"; ProductBrand.WebsiteURL := "https://acme.test";
  ProductBrand.CreatedAt := {| time.sec := 63800000000; time.nsec := 0 |};
  ProductBrand.UpdatedAt := {| time.sec := 63800000000; time.nsec := 5 |} |}.

Definition broken_acme : ProductBrand.t := {|
  ProductBrand.ID := 5; ProductBrand.ProductID := 0;
  ProductBrand.Name := ""; ProductBrand.Slug := "acme";
  ProductBrand.Type_ := "retail"; ProductBrand.Description := "tools";
  ProductBrand.Email := "shop@acme.test"; ProductBrand.WebsiteURL := "https://acme.test";
  ProductBrand.CreatedAt := {| time.sec := 63800000000; time.nsec := 0 |};
  ProductBrand.UpdatedAt := time.zero |}.

(** States and requests to run the handlers on. *)

Definition store_down : State := {| store_up := false; sessions := [] |}.
Definition one_session : State := {| store_up := true; sessions := ["uuid-1"] |}.

(** A logout request that carries an access token. *)
Definition logout_request (token : string) : Request := {|
  Body := ""; Cookies := {["access_token" := token]}; URLParams := ∅;
  ParseMultipartForm := None; MultipartForm := None |}.

(** A patch request for the product with the given id. *)
Definition patch_request (product_id : string) : Request := {|
  Body := "{}"; Cookies := ∅; URLParams := {["product_id" := product_id]};
  ParseMultipartForm := None; MultipartForm := None |}.

(** A multipart request with its properties and tags, and no image. *)
Definition form_without_image : Form := {|
  Value := {["properties" := ["{}"]; "tags" := ["1"; "22"]]};
  File := ∅ |}.

Definition create_request (f : Form) : Request := {|
  Body := ""; Cookies := ∅; URLParams := ∅;
  ParseMultipartForm := None; MultipartForm := Some f |}.

End Demo.

(** The session/token flow with a toy signing function: access tokens live
    15 minutes, refresh tokens 7 days. *)
Module AuthDemo.
Import auth.

(** A keyed checksum of the claims; the key 0 is a misconfigured one. *)
Definition mac (key : Z) (c : Claims) : option Z :=
  if key =? 0 then None
  else Some (key * 1000003 + identity c * 31 + expiry c * 7 + Z.of_nat (String.length (uuid c))).

Definition demo : Config Z Z := {|
  sign := mac;
  accessSecret := 11;
  refreshSecret := 23;
  accessTTL := 15 * 60;
  refreshTTL := 7 * 24 * 3600
|}.

Definition empty : Medium := {| entries := ∅; available := true |}.

(** The pair issued for identity 42 at time 1000. *)
Definition pair42 : TokenPair Z := {|
  accessToken := {| claims := {| identity := 42; uuid := "a-1"; expiry := 1900 |};
                    signature := 11014638 |};
  accessUUID := "a-1";
  accessExpiry := 1900;
  refreshToken := {| claims := {| identity := 42; uuid := "r-1"; expiry := 605800 |};
                     signature := 27241974 |};
  refreshUUID := "r-1";
  refreshExpiry := 605800
|}.

(** The store after [Save 42 pair42]. *)
Definition saved42 : Medium := {|
  entries := <["r-1" := (42, 605800)]> (<["a-1" := (42, 1900)]> ∅);
  available := true
|}.

(** The pair that the refresh at time 2000 issues. *)
Definition pair42' : TokenPair Z := {|
  accessToken := {| claims := {| identity := 42; uuid := "a-2"; expiry := 2900 |};
                    signature := 11021638 |};
  accessUUID := "a-2";
  accessExpiry := 2900;
  refreshToken := {| claims := {| identity := 42; uuid := "r-2"; expiry := 606800 |};
                     signature := 27248974 |};
  refreshUUID := "r-2";
  refreshExpiry := 606800
|}.

(** The pair that a refresh at time 1500 issues, and the store after it. *)
Definition pair42_1500 : TokenPair Z := {|
  accessToken := {| claims := {| identity := 42; uuid := "a-2"; expiry := 2400 |};
                    signature := 11018138 |};
  accessUUID := "a-2";
  accessExpiry := 2400;
  refreshToken := {| claims := {| identity := 42; uuid := "r-2"; expiry := 606300 |};
                     signature := 27245474 |};
  refreshUUID := "r-2";
  refreshExpiry := 606300
|}.

Definition refreshed1500 : Medium := {|
  entries := <["r-2" := (42, 606300)]>
               (<["a-2" := (42, 2400)]> (delete "r-1" (entries saved42)));
  available := true
|}.

(** A token that nobody signed, with an expiry in the past. *)
Definition forged : Token Z :=
  {| claims := {| identity := 1; uuid := "x"; expiry := 10 |}; signature := 0 |}.

(** What other clients do after the refresh. *)
Definition later : list (Op Z) :=
  [ OpDelete "a-2" 2500; OpOutage; OpSave 7 pair42'; OpRecover;
    OpRefresh (refreshToken pair42') 3000 "a-3" "r-3"; OpDelete "r-1" 3100 ].

(** The store after the refresh of [pair42] at time 2000. *)
Definition refreshed42 : Medium := {|
  entries := <["r-2" := (42, 606800)]>
               (<["a-2" := (42, 2900)]> (delete "r-1" (entries saved42)));
  available := true
|}.

End AuthDemo.

(** A small application for the other handlers: the user [Demo.ana], who
    has no avatar, and a catalogue that is a list of product names. *)
Module HandlersDemo.
Import model handlers.

Definition values : Values := {|
  Ctx := Z;
  UserPatch := string;
  Address := string;
  AddressPatch := string;
  AddressType := string;
  File := string;
  FileHeader := string;
  AvatarURL := string;
  AvatarPublicID := string;
  Product := string * Z;
  ProductTags := list string;
  ProductImages := list string;
  ProductReviews := list string;
  ProductTag := string;
  ProductImage := string;
  ProductImagePatch := string;
  ProductProperties := list string;
  SearchResults := list string;
  Pages := list (string * Z) * Z
|}.
#[local] Existing Instance values.

Definition errNotFound : AppErr :=
  NewAppErr "app" ErrInternal "en" {| MessageID := "app.not_found"; Other := "not found" |} 404 None.

(** The state is the number of calls that reached the application. *)
Definition app : App (AppState := Z) := {|
  GetUserIDFromContext ctx := ctx;
  GetUserByID uid n :=
    if uid =? 7 then (Some Demo.ana, None, n + 1) else (None, Some errNotFound, n + 1);
  GetUserByEmail email n :=
    if String.eqb email "ana@example.com" then (Some Demo.ana, None, n + 1)
    else (None, Some errNotFound, n + 1);
  SendVerificationEmail user email n := (None, n + 1);
  VerifyUserEmail token n := (None, n + 1);
  SendPasswordResetEmail email n := (None, n + 1);
  ResetUserPassword token password n := (None, n + 1);
  PatchUserProfile uid patch n := (Some Demo.ana, None, n + 1);
  ChangeUserPassword uid old new n :=
    if String.eqb old "hash" then (None, n + 1) else (Some errNotFound, n + 1);
  DeleteUser uid n := (None, n + 1);
  UploadUserAvatar uid f fh n := (String.append "https://cdn.test/" fh, fh, None, n + 1);
  DeleteUserAvatar uid publicID n := (None, n + 1);
  CreateUserAddress addr uid kind n := (addr, None, n + 1);
  GetUserAddress id n := (Some "home", None, n + 1);
  PatchUserAddress id patch n := (patch, None, n + 1);
  DeleteUserAddress id n := (None, n + 1);
  DeleteProduct id n := (None, n + 1);
  GetProduct id n := (Some ("hammer", 1), None, n + 1);
  GetProducts filters limit offset n := ([], None, n + 1);
  GetProductTags id n := ([], None, n + 1);
  GetProductImages id n := ([], None, n + 1);
  GetProductReviews id n := ([], None, n + 1);
  GetProductTag id n := (Some "tools", None, n + 1);
  GetImage id n := (Some "a.png", None, n + 1);
  PatchProductImage id patch n := (patch, None, n + 1);
  DeleteProductTag id n := (None, n + 1);
  DeleteProductImage id n := (None, n + 1);
  GetProductProperties n := ([], None, n + 1);
  GetFeaturedProducts limit offset n := ([], None, n + 1);
  SearchProducts q n := ([q], None, n + 1)
|}.

(** A body is read as fields "key=value" separated by "&". *)
Fixpoint fields (s k v : string) (in_value : bool) : list (string * string) :=
  match s with
  | EmptyString => [(k, v)]
  | String "&" rest => (k, v) :: fields rest "" "" false
  | String "=" rest => fields rest k v true
  | String c rest =>
      if in_value then fields rest k (String.append v (String c "")) true
      else fields rest (String.append k (String c "")) v false
  end.

Definition lib : Lib := {|
  MapStrStrFromJSON body := list_to_map (fields body "" "" false);
  NormalizeEmail email := email;
  IsValidEmail email := negb (String.eqb email "not-an-email");
  UserPatchFromJSON body := (Some body, None);
  AddressFromJSON body := (Some body, None);
  AddressPatchFromJSON body := (Some body, None);
  ProductImagePatchFromJSON body := (Some body, None);
  PhysicalAddress := "physical";
  TotalCount p := snd p;
  NewFromRequest r := ([], 0);
  Limit pages := 10;
  Offset pages := 0;
  SetData pages products total := (products, total);
  Open fh := inl fh
|}.

Definition request (body : string) (params : gmap string string) : Request := {|
  Body := body; Context_ := 7; URLParams := params; Query := ∅;
  ParseMultipartForm := None;
  MultipartForm := Some {| Value := ∅; File_ := ∅ |} |}.

End HandlersDemo.


(* ===================================================================== *)
(** * Properties *)
(* ===================================================================== *)


Module ModelFacts.
Import model model.ProductBrand.

Lemma is_empty_spec (s : string) : is_empty s = true <-> s = "".
Proof. destruct s; simpl; split; congruence. Qed.

Lemma is_empty_false (s : string) : is_empty s = false <-> s <> "".
Proof. destruct s; simpl; split; congruence. Qed.

(** One guarded [Add] extends the failing entries by one criterion. *)
Lemma failing_snoc (c : bool) (e : ValidationError) (l : list (bool * ValidationError)) :
  add_if c e (failing l) = failing (l ++ [(negb c, e)]).
Proof.
  unfold add_if, Add, failing.
  rewrite List.filter_app, List.map_app. simpl.
  rewrite negb_involutive.
  destruct c; simpl; [reflexivity | now rewrite List.app_nil_r].
Qed.

(** [Validate] reports exactly the failing criteria, in their order. *)
Lemma Validate_entries (pb : ProductBrand.t) :
  Validate pb =
    match failing_entries pb with
    | [] => None
    | errs => Some (NewValidationError "ProductBrand" msgInvalidBrand "" errs)
    end.
Proof.
  unfold Validate, failing_entries, brand_criteria, GetUserLocalizer.
  cbv zeta.
  change (@nil ValidationError) with (failing []).
  rewrite !failing_snoc. cbn [app].
  rewrite !negb_involutive.
  match goal with |- context [failing ?l] => destruct (failing l) end; reflexivity.
Qed.

Lemma failing_nil_iff (l : list (bool * ValidationError)) :
  failing l = [] <-> List.Forall (fun c => fst c = true) l.
Proof.
  unfold failing. induction l as [|[b e] l IH]; simpl.
  - split; [constructor | reflexivity].
  - destruct b; simpl.
    + rewrite IH. split; [now constructor | now inversion 1].
    + split; [discriminate | inversion 1; discriminate].
Qed.

Lemma brand_ok_iff (pb : ProductBrand.t) :
  brand_ok pb <-> List.Forall (fun c => fst c = true) (brand_criteria pb).
Proof.
  unfold brand_ok, brand_criteria.
  repeat rewrite List.Forall_cons_iff. cbn [fst].
  rewrite !negb_true_iff, !Z.eqb_eq, !is_empty_false.
  pose proof (List.Forall_nil (fun c : bool * ValidationError => fst c = true)).
  tauto.
Qed.

Example Validate_acme : Validate Demo.acme = None.
Proof. reflexivity. Qed.

Example Validate_broken_acme :
  Validate Demo.broken_acme =
    Some (NewValidationError "ProductBrand" msgInvalidBrand ""
            [ Invalid "brand.id" "en" msgValidateBrandID;
              Invalid "brand.name" "en" msgValidateBrandName;
              Invalid "brand.updated_at" "en" msgValidateBrandUpAt ]).
Proof. reflexivity. Qed.

(** C10. [ProductBrand.Validate] returns nil exactly when ID and ProductID
    are 0, the six strings (Name, Slug, Type, Description, Email, WebsiteURL)
    are non-empty and both timestamps are non-zero; in every other case it
    returns the validation error "ProductBrand" whose entries are the entries
    of the failing fields, one for each, in the order of the checks. *)
Theorem Validate_nil_iff_all_fields_pass (pb : ProductBrand.t) :
  (Validate pb = None <-> brand_ok pb) /\
  (Validate pb = None \/
   Validate pb = Some (NewValidationError "ProductBrand" msgInvalidBrand "" (failing_entries pb))) /\
  length (failing_entries pb) =
    length (List.filter (fun c => negb (fst c)) (brand_criteria pb)).
Proof.
  split; [|split].
  - rewrite Validate_entries, brand_ok_iff.
    unfold failing_entries. rewrite <- failing_nil_iff.
    destruct (failing (brand_criteria pb)); split; congruence.
  - rewrite Validate_entries.
    destruct (failing_entries pb); [now left | now right].
  - unfold failing_entries, failing. apply List.length_map.
Qed.

End ModelFacts.

Module PostgresFacts.
Import model postgres.

(** [Get] does reach the database: it sends its SELECT. *)
Lemma Get_sends_statement (s : PgUserStore) (id : Z) (fault : option strconv.error) :
  statements (db (snd (Get s id fault))) =
  statements (db s) ++ ["SELECT * FROM public.user where id = $1"].
Proof. unfold Get, db_Get. destruct fault; [|destruct (List.find _ _)]; reflexivity. Qed.

(** C7. For every store (so every database state) and every argument,
    [GetAll] returns the empty slice and no error, [Update] and [Delete]
    return the zero-value user and no error, and none of them sends a
    statement or changes a row: the store they leave is the store they got. *)
Theorem stubs_are_empty_success (s : PgUserStore) (id : Z) (u : option User.t) :
  GetAll s = ([], None, s) /\
  Update s id u = (Some User.zero, None, s) /\
  Delete s id = (Some User.zero, None, s) /\
  statements (db (snd (GetAll s))) = statements (db s) /\
  statements (db (snd (Update s id u))) = statements (db s) /\
  statements (db (snd (Delete s id))) = statements (db s).
Proof. repeat split. Qed.

End PostgresFacts.


Module ApiFacts.
Import model apiv1.

Section Handlers.
Context `{Values} {AppState : Type}.
Variable app : App (AppState := AppState).
Variable dec : Decoders.

(** Unfolds the monad down to the calls it sequences. *)
Ltac run_handler :=
  unfold serve, mbind, M_bind, bind, call, emit, when, deref, index, ret, panic; cbn.

(** [login], when everything before [SaveAuth] succeeds and [SaveAuth]
    returns an error: the error is sent, and then the cookies are attached
    and the user is sent with status 200 all the same (the branch that sends
    the error does not return). *)
Lemma login_after_SaveAuth_error (r : Request) (s s1 s2 s3 : AppState)
    (u : option UserLogin) (user : User.t) (meta : option TokenMetadata) (e : AppErr) :
  UserLoginFromJSON dec (Body r) = (u, None) ->
  Login app u s = (Some user, None, s1) ->
  IssueTokens app (Some user) s1 = (meta, None, s2) ->
  SaveAuth app (User.ID user) meta s2 = (Some e, s3) ->
  serve (login app dec) r s =
    (inl tt, {| app_state := s3;
                sent := [respondError (Some e); AttachSessionCookies meta;
                         respondJSON StatusOK (UserJSON (Some user))] |}).
Proof.
  intros Hdec Hlogin Hissue Hsave.
  unfold serve, login. rewrite Hdec. run_handler.
  rewrite Hlogin. cbn. rewrite Hissue. cbn. rewrite Hsave. reflexivity.
Qed.

(** The same for [createUser], with status 201. *)
Lemma createUser_after_SaveAuth_error (r : Request) (s s1 s2 s3 : AppState)
    (u : option User.t) (user : User.t) (meta : option TokenMetadata) (e : AppErr) :
  UserFromJSON dec (Body r) = (u, None) ->
  CreateUser app u s = (Some user, None, s1) ->
  IssueTokens app (Some user) s1 = (meta, None, s2) ->
  SaveAuth app (User.ID user) meta s2 = (Some e, s3) ->
  serve (createUser app dec) r s =
    (inl tt, {| app_state := s3;
                sent := [respondError (Some e); AttachSessionCookies meta;
                         respondJSON StatusCreated (UserJSON (Some user))] |}).
Proof.
  intros Hdec Hcreate Hissue Hsave.
  unfold serve, createUser. rewrite Hdec. run_handler.
  rewrite Hcreate. cbn. rewrite Hissue. cbn. rewrite Hsave. reflexivity.
Qed.

(** The sibling path: an error of [Login] is sent and the handler returns;
    no cookie is attached. *)
Lemma login_after_Login_error (r : Request) (s s1 : AppState)
    (u : option UserLogin) (user : option User.t) (e : AppErr) :
  UserLoginFromJSON dec (Body r) = (u, None) ->
  Login app u s = (user, Some e, s1) ->
  serve (login app dec) r s =
    (inl tt, {| app_state := s1; sent := [respondError (Some e)] |}).
Proof.
  intros Hdec Hlogin.
  unfold serve, login. rewrite Hdec. run_handler. rewrite Hlogin. reflexivity.
Qed.

(** [refresh]: an error of [RefreshToken] is sent and no cookie is
    attached; a refreshed pair is attached and answered [respondOK]. *)
Lemma refresh_by_RefreshToken (r : Request) (s s1 : AppState)
    (rt : option RefreshToken) (meta : option TokenMetadata) (err : option AppErr) :
  RefreshTokenFromJSON dec (Body r) = (rt, None) ->
  RefreshToken_ app rt s = (meta, err, s1) ->
  serve (refresh app dec) r s =
    (inl tt, {| app_state := s1;
                sent := if is_Some_b err then [respondError err]
                        else [AttachSessionCookies meta; respondOK] |}).
Proof.
  intros Hdec Happ.
  unfold serve, refresh. rewrite Hdec. run_handler. rewrite Happ. cbn.
  destruct err; reflexivity.
Qed.

(** C2, as the code has it. For every logout request whose access token is
    extracted, the handler first clears the session cookies and then answers
    by the result of [DeleteAuth]: [respondOK] exactly when it returned no
    error and a count other than 0; with zero records deleted and no error it
    takes the error branch, calling [respondError] with the nil error, and
    does not call [respondOK]. *)
Theorem logout_ok_iff_deleted (r : Request) (s s1 s2 : AppState)
    (ad : AccessData) (deleted : Z) (err : option AppErr) :
  ExtractTokenMetadata app r s = (Some ad, None, s1) ->
  DeleteAuth app (AccessUUID ad) s1 = (deleted, err, s2) ->
  serve (logout app) r s =
    (inl tt, {| app_state := s2;
                sent := [DeleteSessionCookies;
                         if is_Some_b err || (deleted =? 0) then respondError err
                         else respondOK] |}) /\
  (In respondOK (sent (snd (serve (logout app) r s))) <-> err = None /\ deleted <> 0).
Proof.
  intros Hext Hdel.
  assert (Hrun : serve (logout app) r s =
    (inl tt, {| app_state := s2;
                sent := [DeleteSessionCookies;
                         if is_Some_b err || (deleted =? 0) then respondError err
                         else respondOK] |})).
  { unfold logout. run_handler. rewrite Hext. cbn. rewrite Hdel. cbn.
    destruct (is_Some_b err || (deleted =? 0)); reflexivity. }
  split; [exact Hrun|].
  rewrite Hrun. cbn.
  destruct err as [e|]; cbn.
  - split; [intros [?|[?|[]]]; discriminate | intros [? _]; discriminate].
  - destruct (Z.eqb_spec deleted 0) as [->|Hne]; cbn.
    + split; [intros [?|[?|[]]]; discriminate | intros [_ ?]; congruence].
    + split; [intros _; split; [reflexivity | exact Hne] | intros _; right; now left].
Qed.

(** C8. In [patchProduct], when the URL parameter and the body decode and
    [PatchProduct] returns a non-nil error, the handler answers 200 with the
    product that came with the error: the test after the call reads the
    decode error, which is nil there, and the error of [PatchProduct] is
    never looked at. *)
Theorem patchProduct_ignores_PatchProduct_error (r : Request) (s s1 : AppState)
    (pid : Z) (patch : option ProductPatch) (uprod : option Product) (pErr : AppErr) :
  strconv.ParseInt (URLParam r "product_id") = (pid, None) ->
  ProductPatchFromJSON dec (Body r) = (patch, None) ->
  PatchProduct app pid patch s = (uprod, Some pErr, s1) ->
  serve (patchProduct app dec) r s =
    (inl tt, {| app_state := s1; sent := [respondJSON StatusOK (ProductJSON uprod)] |}).
Proof.
  intros Hpid Hpatch Happ.
  unfold serve, patchProduct. rewrite Hpid. cbn. rewrite Hpatch. run_handler.
  rewrite Happ. reflexivity.
Qed.

(** The sibling [patchProductTag] does send the error of its call. *)
Lemma patchProductTag_sends_error (r : Request) (s s1 : AppState)
    (tid : Z) (patch : option ProductTagPatch) (utag : option ProductTag) (pErr : AppErr) :
  strconv.ParseInt (URLParam r "tag_id") = (tid, None) ->
  ProductTagPatchFromJSON dec (Body r) = (patch, None) ->
  PatchProductTag app tid patch s = (utag, Some pErr, s1) ->
  serve (patchProductTag app dec) r s =
    (inl tt, {| app_state := s1; sent := [respondError (Some pErr)] |}).
Proof.
  intros Htid Hpatch Happ.
  unfold serve, patchProductTag. rewrite Htid. cbn. rewrite Hpatch. run_handler.
  rewrite Happ. reflexivity.
Qed.

(** C9. [createProduct] on a multipart request that parses and decodes but
    omits the "image" file field or the "properties" value field: the handler
    indexes position 0 of an empty slice and panics; nothing has been sent on
    the response writer and the application was not called. *)
Theorem createProduct_panics_on_missing_field (r : Request) (s : AppState) (mpf : Form) :
  ParseMultipartForm r = None ->
  MultipartForm r = Some mpf ->
  snd (SchemaDecode dec (Value mpf)) = None ->
  File mpf !! "image" = None \/ Value mpf !! "properties" = None ->
  serve (createProduct app dec) r s =
    (inr "index out of range", {| app_state := s; sent := [] |}).
Proof.
  intros Hparse Hform Hdecode Hmissing.
  unfold serve, createProduct. rewrite Hparse, Hform. run_handler.
  destruct (SchemaDecode dec (Value mpf)) as [p err]. cbn in Hdecode. subst err. cbn.
  unfold index_map.
  destruct (File mpf !! "image") as [[|fh headers]|] eqn:Himage; cbn; try reflexivity.
  destruct Hmissing as [Hm|Hm]; [discriminate|].
  rewrite Hm. reflexivity.
Qed.

End Handlers.

End ApiFacts.

(** The handlers run on the small application. *)
Module ApiRuns.
Import model apiv1 Demo.
#[local] Existing Instance values.


(** C1, at the failing input. A login and a registration with the session
    store down: [SaveAuth] returns its error, the handler sends it, and then
    attaches the session cookies and sends the user with the success status
    all the same. The state shows that no session was recorded. *)
Theorem login_SaveAuth_error_still_attaches_cookies :
  serve (login app dec) (request "ana@example.com") store_down =
    (inl tt, {| app_state := store_down;
                sent := [respondError (Some errSaveAuth);
                         AttachSessionCookies (Some "uuid-1");
                         respondJSON StatusOK (UserJSON (Some ana))] |}) /\
  serve (createUser app dec) (request "{}") store_down =
    (inl tt, {| app_state := store_down;
                sent := [respondError (Some errSaveAuth);
                         AttachSessionCookies (Some "uuid-1");
                         respondJSON StatusCreated (UserJSON (Some ana))] |}).
Proof.
  split.
  - apply (ApiFacts.login_after_SaveAuth_error app dec _ store_down store_down store_down store_down
             (Some "ana@example.com") ana (Some "uuid-1") errSaveAuth); reflexivity.
  - apply (ApiFacts.createUser_after_SaveAuth_error app dec _ store_down store_down store_down store_down
             (Some ana) ana (Some "uuid-1") errSaveAuth); reflexivity.
Qed.

(** C2 fails as stated: a logout whose token is extracted and whose
    identifier is no longer in the store. [DeleteAuth] returns 0 and no
    error, and the handler calls [respondError] with nil and never
    [respondOK]. *)
Lemma logout_zero_deleted_is_not_ok :
  ExtractTokenMetadata app (logout_request "uuid-9") one_session =
    (Some {| AccessUUID := "uuid-9" |}, None, one_session) /\
  DeleteAuth app "uuid-9" one_session = (0, None, one_session) /\
  serve (logout app) (logout_request "uuid-9") one_session =
    (inl tt, {| app_state := one_session;
                sent := [DeleteSessionCookies; respondError None] |}) /\
  ~ In respondOK (sent (snd (serve (logout app) (logout_request "uuid-9") one_session))).
Proof.
  repeat split.
  intros [Hin|[Hin|[]]]; discriminate.
Qed.

(** A logout that deletes its session is answered [respondOK]; one that
    deletes nothing is not. *)
Lemma logout_ok_iff_deleted_witness :
  (serve (logout app) (logout_request "uuid-1") one_session =
     (inl tt, {| app_state := {| store_up := true; sessions := [] |};
                 sent := [DeleteSessionCookies; respondOK] |}) /\
   (In respondOK (sent (snd (serve (logout app) (logout_request "uuid-1") one_session)))
    <-> @None AppErr = None /\ 1 <> 0)).
Proof.
  exact (ApiFacts.logout_ok_iff_deleted app (logout_request "uuid-1")
           one_session one_session {| store_up := true; sessions := [] |}
           {| AccessUUID := "uuid-1" |} 1 None eq_refl eq_refl).
Defined.

(** A patch of a product that the application fails to patch is answered
    200. *)
Lemma patchProduct_ignores_PatchProduct_error_witness :
  serve (patchProduct app dec) (patch_request "2") one_session =
    (inl tt, {| app_state := one_session;
                sent := [respondJSON StatusOK (ProductJSON (Some ""))] |}).
Proof.
  exact (ApiFacts.patchProduct_ignores_PatchProduct_error app dec (patch_request "2")
           one_session one_session 2 (Some "{}") (Some "") errPatch
           eq_refl eq_refl eq_refl).
Defined.

(** A product form without its image makes the handler panic. *)
Lemma createProduct_panics_on_missing_field_witness :
  serve (createProduct app dec) (create_request form_without_image) one_session =
    (inr "index out of range", {| app_state := one_session; sent := [] |}).
Proof.
  exact (ApiFacts.createProduct_panics_on_missing_field app dec
           (create_request form_without_image) one_session form_without_image
           eq_refl eq_refl eq_refl (or_introl eq_refl)).
Defined.

(** With the image and the properties the same request is served. *)
Example createProduct_with_image :
  serve (createProduct app dec)
    (create_request {| Value := Value form_without_image; File := {["image" := ["a.png"]]} |})
    one_session =
    (inl tt, {| app_state := one_session;
                sent := [respondJSON StatusCreated (ProductJSON (Some "product"))] |}).
Proof. reflexivity. Qed.

(** [strconv.ParseInt] at the bounds of [int64] and on malformed input. *)
Example ParseInt_examples :
  strconv.ParseInt "-9223372036854775808" = (-9223372036854775808, None) /\
  strconv.ParseInt "9223372036854775808" = (9223372036854775807, Some "value out of range") /\
  strconv.ParseInt "+12" = (12, None) /\
  strconv.ParseInt "" = (0, Some "invalid syntax") /\
  strconv.ParseInt "1_0" = (0, Some "invalid syntax").
Proof. repeat split. Qed.

End ApiRuns.

Module AuthFacts.
Import auth.

Section Flow.
Context {Secret Signature : Type} `{EqDecision Signature}.
Variable cfg : Config Secret Signature.

(** What an issued pair holds. *)
Lemma IssueTokens_Ok (who : Identity) (now : Timestamp) (au ru : UUID) (p : TokenPair Signature) :
  IssueTokens cfg who now au ru = Ok p ->
  accessUUID p = au /\ refreshUUID p = ru /\
  accessExpiry p = now + accessTTL cfg /\ refreshExpiry p = now + refreshTTL cfg /\
  claims (accessToken p) = {| identity := who; uuid := au; expiry := now + accessTTL cfg |} /\
  claims (refreshToken p) = {| identity := who; uuid := ru; expiry := now + refreshTTL cfg |} /\
  valid_signature cfg (accessSecret cfg) (accessToken p) = true /\
  valid_signature cfg (refreshSecret cfg) (refreshToken p) = true.
Proof.
  unfold IssueTokens, valid_signature.
  destruct (sign cfg (accessSecret cfg) _) as [sa|] eqn:Hsa; [|discriminate].
  destruct (sign cfg (refreshSecret cfg) _) as [sr|] eqn:Hsr; [|discriminate].
  intros [= <-]. cbn. rewrite Hsa, Hsr.
  rewrite !bool_decide_eq_true_2 by reflexivity. repeat split.
Qed.

(** [Save] succeeds exactly on an available medium, and then both entries
    are there. *)
Lemma Save_Ok (who : Identity) (p : TokenPair Signature) (m m1 : Medium) :
  Save who p m = (Ok tt, m1) ->
  available m1 = true /\
  entries m1 = <[refreshUUID p := (who, refreshExpiry p)]>
                 (<[accessUUID p := (who, accessExpiry p)]> (entries m)).
Proof.
  unfold Save. destruct (available m); [|discriminate].
  intros [= <-]. split; reflexivity.
Qed.

(** A verification whose identifier has no entry does not succeed, and
    fails by expiry, by signature or as revoked. *)
Lemma ExtractWith_absent (secret : Secret) (raw : Token Signature) (now : Timestamp) (m : Medium) :
  entries m !! uuid (claims raw) = None ->
  ExtractWith cfg secret raw now m =
    if elapsed (expiry (claims raw)) now then Err Expired
    else if valid_signature cfg secret raw then Err RevokedOrUnknown
    else Err InvalidSignature.
Proof.
  intros Habs. unfold ExtractWith, Lookup, live. rewrite Habs.
  destruct (elapsed _ _); [reflexivity|].
  destruct (valid_signature _ _ _); cbn; [|reflexivity].
  destruct (available m); reflexivity.
Qed.

(** A verification that succeeds has passed the three checks. *)
Lemma ExtractWith_Ok (secret : Secret) (raw : Token Signature) (now : Timestamp) (m : Medium)
    (who : Identity) (u : UUID) :
  ExtractWith cfg secret raw now m = Ok (who, u) ->
  who = identity (claims raw) /\ u = uuid (claims raw) /\
  elapsed (expiry (claims raw)) now = false /\
  valid_signature cfg secret raw = true /\
  available m = true /\ is_Some (entries m !! u).
Proof.
  unfold ExtractWith, Lookup, live.
  destruct (elapsed _ _); [discriminate|].
  destruct (valid_signature _ _ _); [|discriminate]. cbn.
  destruct (available m); [|discriminate].
  destruct (entries m !! uuid (claims raw)) as [[w e]|] eqn:Hent; [|discriminate].
  destruct (elapsed e now); [discriminate|].
  intros [= <- <-]. rewrite Hent. repeat split. eauto.
Qed.

(** No operation other than one that writes [u] brings [u] back. *)
Lemma step_keeps_absent (u : UUID) (m : Medium) (op : Op Signature) :
  entries m !! u = None ->
  u ∉ writes op ->
  entries (step cfg m op) !! u = None.
Proof.
  intros Habs Hw. destruct op as [who p|v now|raw now au ru| |]; cbn in *.
  - unfold Save. destruct (available m); cbn; [|exact Habs].
    rewrite !lookup_insert_ne by set_solver. exact Habs.
  - unfold Delete. destruct (available m); cbn; [|exact Habs].
    rewrite lookup_delete. case_decide; [reflexivity | exact Habs].
  - unfold Refresh.
    destruct (ExtractWith cfg (refreshSecret cfg) raw now m) as [[who old]|e];
      [|exact Habs].
    destruct (IssueTokens cfg who now au ru) as [p|e] eqn:Hissue; [|exact Habs].
    apply IssueTokens_Ok in Hissue as (Hau & Hru & _).
    unfold Delete, Save. destruct (available m); cbn; [|exact Habs].
    rewrite Hau, Hru, !lookup_insert_ne by set_solver.
    rewrite lookup_delete. case_decide; [reflexivity | exact Habs].
  - exact Habs.
  - exact Habs.
Qed.

Lemma run_keeps_absent (u : UUID) (ops : list (Op Signature)) (m : Medium) :
  entries m !! u = None ->
  Forall (fun op => u ∉ writes op) ops ->
  entries (run cfg ops m) !! u = None.
Proof.
  unfold run. revert m. induction ops as [|op ops IH]; intros m Habs Hops; cbn.
  - exact Habs.
  - inversion Hops; subst. apply IH; [|assumption].
    now apply step_keeps_absent.
Qed.

(** A successful refresh has verified its token and leaves the store
    without the old refresh identifier, the new identifiers being other
    than the old one. *)
Lemma Refresh_Ok (raw : Token Signature) (now : Timestamp) (au ru : UUID) (m m1 : Medium) (p : TokenPair Signature) :
  Refresh cfg raw now au ru m = (Ok p, m1) ->
  valid_signature cfg (refreshSecret cfg) raw = true /\
  IssueTokens cfg (identity (claims raw)) now au ru = Ok p /\
  available m1 = true /\
  entries m1 = <[ru := (identity (claims raw), refreshExpiry p)]>
                 (<[au := (identity (claims raw), accessExpiry p)]>
                    (delete (uuid (claims raw)) (entries m))).
Proof.
  unfold Refresh.
  destruct (ExtractWith cfg (refreshSecret cfg) raw now m) as [[who old]|e] eqn:Hext;
    [|discriminate].
  apply ExtractWith_Ok in Hext as (-> & -> & _ & Hsig & Hav & _).
  destruct (IssueTokens cfg _ now au ru) as [q|e] eqn:Hissue; [|discriminate].
  unfold Delete, Save. rewrite Hav. cbn. intros [= <- <-].
  apply IssueTokens_Ok in Hissue as Hq. destruct Hq as (Hau & Hru & _).
  rewrite Hau, Hru. repeat split; assumption.
Qed.

(** C3, as the specification has it. For every identity, issuing a pair
    (with two distinct identifiers), saving it in the Session Store and then
    extracting the access token at a time when its expiry has not elapsed
    returns the identity, with the access identifier. *)
Theorem issue_save_extract_roundtrip (who : Identity) (now now' : Timestamp) (au ru : UUID)
    (p : TokenPair Signature) (m m1 : Medium) :
  au <> ru ->
  IssueTokens cfg who now au ru = Ok p ->
  Save who p m = (Ok tt, m1) ->
  elapsed (accessExpiry p) now' = false ->
  Extract cfg (accessToken p) now' m1 = Ok (who, accessUUID p).
Proof.
  intros Hne Hissue Hsave Hlive.
  apply IssueTokens_Ok in Hissue as (Hau & Hru & Hexp & _ & Hcl & _ & Hsig & _).
  apply Save_Ok in Hsave as (Hav & Hent).
  unfold Extract, ExtractWith, Lookup, live.
  rewrite Hcl, Hsig, Hav, Hent. cbn.
  rewrite <- Hexp, Hlive. cbn.
  rewrite Hru, Hau, lookup_insert_ne, lookup_insert_eq by congruence.
  rewrite Hlive. reflexivity.
Qed.

(** A refresh that succeeded ran on an available medium. *)
Lemma Refresh_Ok_available (raw : Token Signature) (now : Timestamp) (au ru : UUID)
    (m m1 : Medium) (p : TokenPair Signature) :
  Refresh cfg raw now au ru m = (Ok p, m1) -> available m = true.
Proof.
  unfold Refresh.
  destruct (ExtractWith cfg (refreshSecret cfg) raw now m) as [[who old]|e] eqn:Hext;
    [|discriminate].
  apply ExtractWith_Ok in Hext as (_ & _ & _ & _ & Hav & _). intros _. exact Hav.
Qed.

(** C4, as the specification has it. After a refresh that succeeded, a
    refresh with the same raw refresh token fails, at whatever time and with
    whatever new identifiers it is tried, and after any further operations on
    the Session Store: the old refresh identifier never resolves again.
    Generated identifiers are unique: the identifiers of the new pair and of
    later operations are other than the old one. The failure is [Expired] or
    [RevokedOrUnknown], and the store is left as it was. The refresh
    invalidates nothing else: every token whose identifier is neither the old
    refresh identifier nor one of the two new ones, the old access token
    among them, is verified after the refresh exactly as before it. *)
Theorem refresh_invalidates_old_refresh_token (raw : Token Signature) (now now' : Timestamp)
    (au ru au' ru' : UUID) (p : TokenPair Signature) (m m1 : Medium) (ops : list (Op Signature)) :
  Refresh cfg raw now au ru m = (Ok p, m1) ->
  au <> uuid (claims raw) ->
  ru <> uuid (claims raw) ->
  Forall (fun op => uuid (claims raw) ∉ writes op) ops ->
  (exists e, Refresh cfg raw now' au' ru' (run cfg ops m1) = (Err e, run cfg ops m1) /\
             (e = Expired \/ e = RevokedOrUnknown)) /\
  (forall (secret : Secret) (t : Token Signature) (at_ : Timestamp),
     uuid (claims t) <> uuid (claims raw) ->
     uuid (claims t) <> au ->
     uuid (claims t) <> ru ->
     ExtractWith cfg secret t at_ m1 = ExtractWith cfg secret t at_ m).
Proof.
  intros Hfirst Hau Hru Hops.
  pose proof (Refresh_Ok_available _ _ _ _ _ _ _ Hfirst) as Hav.
  apply Refresh_Ok in Hfirst as (Hsig & _ & Hav1 & Hent).
  split.
  - assert (Hgone : entries m1 !! uuid (claims raw) = None).
    { rewrite Hent, !lookup_insert_ne by congruence. apply lookup_delete_eq. }
    pose proof (run_keeps_absent (uuid (claims raw)) ops m1 Hgone Hops) as Habs.
    unfold Refresh. rewrite (ExtractWith_absent _ _ _ _ Habs), Hsig.
    destruct (elapsed _ _); eauto.
  - intros secret t at_ Hold Hnau Hnru.
    unfold ExtractWith, Lookup, live. rewrite Hav, Hav1, Hent.
    rewrite !lookup_insert_ne, lookup_delete_ne by congruence. reflexivity.
Qed.

(** C5. A token whose expiry has elapsed at verification time fails
    [Expired], whatever its signature and whatever the Session Store
    holds. *)
Theorem extract_elapsed_is_Expired (raw : Token Signature) (now : Timestamp) (m : Medium) :
  elapsed (expiry (claims raw)) now = true ->
  Extract cfg raw now m = Err Expired.
Proof.
  intros Hel. unfold Extract, ExtractWith. rewrite Hel. reflexivity.
Qed.

(** The signature decides only for a token that has not expired. *)
Lemma extract_bad_signature (raw : Token Signature) (now : Timestamp) (m : Medium) :
  elapsed (expiry (claims raw)) now = false ->
  valid_signature cfg (accessSecret cfg) raw = false ->
  Extract cfg raw now m = Err InvalidSignature.
Proof.
  intros Hel Hsig. unfold Extract, ExtractWith. rewrite Hel, Hsig. reflexivity.
Qed.

(** C6. For an issued pair that was saved, [Delete] of the access
    identifier succeeds and removes the entry (the count is 1 when the entry
    was still live), and a later [Extract] of the same access token, at a
    time when its expiry has not elapsed, fails [RevokedOrUnknown], the
    signature and expiry checks passing as before. *)
Theorem extract_after_delete_is_revoked (who : Identity) (now nowd now' : Timestamp)
    (au ru : UUID) (p : TokenPair Signature) (m m1 : Medium) :
  IssueTokens cfg who now au ru = Ok p ->
  Save who p m = (Ok tt, m1) ->
  elapsed (accessExpiry p) now' = false ->
  exists n m2,
    Delete (accessUUID p) nowd m1 = (Ok n, m2) /\
    (au <> ru -> elapsed (accessExpiry p) nowd = false -> n = 1) /\
    entries m2 !! accessUUID p = None /\
    valid_signature cfg (accessSecret cfg) (accessToken p) = true /\
    elapsed (expiry (claims (accessToken p))) now' = false /\
    Extract cfg (accessToken p) now' m2 = Err RevokedOrUnknown.
Proof.
  intros Hissue Hsave Hlive.
  apply IssueTokens_Ok in Hissue as (Hau & Hru & Hexp & _ & Hcl & _ & Hsig & _).
  apply Save_Ok in Hsave as (Hav & Hent).
  unfold Delete. rewrite Hav.
  eexists _, _. split; [reflexivity|].
  assert (Hgone : (delete (accessUUID p) (entries m1) : gmap UUID (Identity * Timestamp))
                    !! accessUUID p = None) by apply lookup_delete_eq.
  assert (Hel : elapsed (expiry (claims (accessToken p))) now' = false).
  { rewrite Hcl. cbn. rewrite <- Hexp. exact Hlive. }
  repeat split; try assumption.
  - intros Hne Hd. unfold live.
    rewrite Hent, Hru, Hau, lookup_insert_ne, lookup_insert_eq by congruence.
    rewrite Hd. reflexivity.
  - unfold Extract.
    rewrite ExtractWith_absent by (rewrite Hcl; cbn; rewrite <- Hau; exact Hgone).
    rewrite Hel, Hsig. reflexivity.
Qed.

(** [Delete] of an identifier that is absent returns 0 and no error. *)
Lemma Delete_absent (u : UUID) (now : Timestamp) (m : Medium) :
  available m = true ->
  entries m !! u = None ->
  fst (Delete u now m) = Ok 0.
Proof.
  intros Hav Habs. unfold Delete, live. rewrite Hav, Habs. reflexivity.
Qed.

(** A refresh leaves the entry of the old access token where it was: the
    store does not record which access identifier a refresh token was
    issued with. *)
Lemma Refresh_keeps_other_entries (raw : Token Signature) (now : Timestamp) (au ru v : UUID)
    (p : TokenPair Signature) (m m1 : Medium) :
  Refresh cfg raw now au ru m = (Ok p, m1) ->
  v <> uuid (claims raw) -> v <> au -> v <> ru ->
  entries m1 !! v = entries m !! v.
Proof.
  intros Hfirst Hv Hau Hru.
  apply Refresh_Ok in Hfirst as (_ & _ & _ & Hent).
  rewrite Hent, !lookup_insert_ne, lookup_delete_ne by congruence. reflexivity.
Qed.

End Flow.

End AuthFacts.




(** The flow run with the toy signer. *)
Module AuthRuns.
Import auth AuthDemo.

Lemma later_avoids_old : Forall (fun op : Op Z => "r-1" ∉ writes op) later.
Proof.
  unfold later.
  repeat constructor; intros Hin; apply list_elem_of_In in Hin; cbn in Hin;
    intuition discriminate.
Defined.

(** C3 fails as stated: the pair issued for identity 42 is not verified
    until it is saved ([Extract] fails [RevokedOrUnknown] on the store that
    has no entry for it), and once saved it is verified only until its
    expiry (16 minutes later [Extract] fails [Expired]). *)
Lemma issue_then_extract_needs_save :
  IssueTokens demo 42 1000 "a-1" "r-1" = Ok pair42 /\
  Extract demo (accessToken pair42) 1000 empty = Err RevokedOrUnknown /\
  Save 42 pair42 empty = (Ok tt, saved42) /\
  Extract demo (accessToken pair42) (1000 + 16 * 60) saved42 = Err Expired.
Proof. repeat split. Qed.

(** Issue for 42, save, extract at once: identity 42. *)
Lemma issue_save_extract_roundtrip_witness :
  Extract demo (accessToken pair42) 1000 saved42 = Ok (42, "a-1").
Proof.
  exact (AuthFacts.issue_save_extract_roundtrip demo 42 1000 1000 "a-1" "r-1"
           pair42 empty saved42 ltac:(discriminate) eq_refl eq_refl eq_refl).
Defined.

(** The claim fails as stated for the access half of the old pair: after
    the refresh of [pair42] at time 1500 has succeeded, the old access token
    is still verified. *)
Lemma refresh_leaves_old_access_token_usable :
  Refresh demo (refreshToken pair42) 1500 "a-2" "r-2" saved42 = (Ok pair42_1500, refreshed1500) /\
  Extract demo (accessToken pair42) 1500 refreshed1500 = Ok (42, "a-1").
Proof. split; reflexivity. Qed.

(** Refresh with the refresh token of [pair42], then the same token again
    after other clients have used the store; the other tokens are verified as
    before the refresh. *)
Lemma refresh_invalidates_old_refresh_token_witness :
  (exists e, Refresh demo (refreshToken pair42) 4000 "a-4" "r-4" (run demo later refreshed42)
             = (Err e, run demo later refreshed42) /\
             (e = Expired \/ e = RevokedOrUnknown)) /\
  (forall (secret : Z) (t : Token Z) (at_ : Timestamp),
     uuid (claims t) <> uuid (claims (refreshToken pair42)) ->
     uuid (claims t) <> "a-2" ->
     uuid (claims t) <> "r-2" ->
     ExtractWith demo secret t at_ refreshed42 = ExtractWith demo secret t at_ saved42).
Proof.
  exact (AuthFacts.refresh_invalidates_old_refresh_token demo (refreshToken pair42)
           2000 4000 "a-2" "r-2" "a-4" "r-4" pair42' saved42 refreshed42 later
           eq_refl ltac:(discriminate) ltac:(discriminate) later_avoids_old).
Defined.

(** The forged token is past its expiry: [Expired], though its signature is
    not valid either. *)
Lemma extract_elapsed_is_Expired_witness :
  Extract demo forged 11 saved42 = Err Expired.
Proof.
  exact (AuthFacts.extract_elapsed_is_Expired demo forged 11 saved42 eq_refl).
Defined.

Example forged_signature_invalid :
  valid_signature demo (accessSecret demo) forged = false.
Proof. reflexivity. Qed.

(** Issue, save, delete the access identifier, extract. *)
Lemma extract_after_delete_is_revoked_witness :
  exists n m2,
    Delete (accessUUID pair42) 1200 saved42 = (Ok n, m2) /\
    ("a-1" <> "r-1" -> elapsed (accessExpiry pair42) 1200 = false -> n = 1) /\
    entries m2 !! accessUUID pair42 = None /\
    valid_signature demo (accessSecret demo) (accessToken pair42) = true /\
    elapsed (expiry (claims (accessToken pair42))) 1300 = false /\
    Extract demo (accessToken pair42) 1300 m2 = Err RevokedOrUnknown.
Proof.
  exact (AuthFacts.extract_after_delete_is_revoked demo 42 1000 1200 1300 "a-1" "r-1"
           pair42 empty saved42 eq_refl eq_refl eq_refl).
Defined.

(** The scenarios of the testable properties. *)
Example scenario_issue_extract_expire :
  Extract demo (accessToken pair42) 1000 saved42 = Ok (42, "a-1") /\
  Extract demo (accessToken pair42) (1000 + 16 * 60) saved42 = Err Expired.
Proof. repeat split. Qed.

Example scenario_delete_then_extract :
  fst (Delete "a-1" 1000 saved42) = Ok 1 /\
  Extract demo (accessToken pair42) 1000 (snd (Delete "a-1" 1000 saved42)) = Err RevokedOrUnknown /\
  fst (Delete "a-1" 1000 (snd (Delete "a-1" 1000 saved42))) = Ok 0.
Proof. repeat split. Qed.

Example scenario_refresh :
  Refresh demo (refreshToken pair42) 2000 "a-2" "r-2" saved42 = (Ok pair42', refreshed42) /\
  Lookup "r-1" 2000 refreshed42 = Err NotFound /\
  Lookup "a-2" 2000 refreshed42 = Ok 42 /\
  fst (Refresh demo (refreshToken pair42) 2001 "a-3" "r-3" refreshed42) = Err RevokedOrUnknown.
Proof. repeat split. Qed.

(** The access token of the old pair is still verified after the refresh:
    only the refresh identifier was deleted. *)
Example old_access_token_after_refresh :
  Extract demo (accessToken pair42) 1500 (snd (Refresh demo (refreshToken pair42) 1500 "a-2" "r-2" saved42))
    = Ok (42, "a-1").
Proof. repeat split. Qed.

(** A misconfigured key: [SigningError]. *)
Example issue_with_bad_key :
  IssueTokens {| sign := mac; accessSecret := 0; refreshSecret := 23;
                 accessTTL := 900; refreshTTL := 604800 |} 42 1000 "a-1" "r-1"
  = Err SigningError.
Proof. reflexivity. Qed.

(** The store down: [Save] fails [PersistenceError] and writes nothing. *)
Example save_on_unavailable_medium :
  Save 42 pair42 {| entries := ∅; available := false |}
  = (Err PersistenceError, {| entries := ∅; available := false |}).
Proof. reflexivity. Qed.

End AuthRuns.

(* ===================================================================== *)
(** * Further properties of the code *)
(* ===================================================================== *)

(** More about the handlers of [apiv1] above. *)
Module ApiMore.
Import model apiv1.

Section Handlers.
Context `{Values} {AppState : Type}.
Variable app : App (AppState := AppState).
Variable dec : Decoders.

Ltac run_handler :=
  unfold serve, mbind, M_bind, bind, call, emit, when, deref, index, ret, panic; cbn.

(** [login], once the body decodes and [Login] returns a user without
    error, always ends by attaching the session cookies and sending the user
    with status 200; before that it sends one error for [IssueTokens] and one
    for [SaveAuth], for each of the two that failed. [SaveAuth] is called
    with the user's id and whatever [IssueTokens] returned. *)
Theorem login_log_after_Login (r : Request) (s s1 s2 s3 : AppState)
    (u : option UserLogin) (user : User.t) (meta : option TokenMetadata)
    (e1 e2 : option AppErr) :
  UserLoginFromJSON dec (Body r) = (u, None) ->
  Login app u s = (Some user, None, s1) ->
  IssueTokens app (Some user) s1 = (meta, e1, s2) ->
  SaveAuth app (User.ID user) meta s2 = (e2, s3) ->
  serve (login app dec) r s =
    (inl tt,
     {| app_state := s3;
        sent := (if is_Some_b e1 then [respondError e1] else []) ++
                (if is_Some_b e2 then [respondError e2] else []) ++
                [AttachSessionCookies meta; respondJSON StatusOK (UserJSON (Some user))] |}).
Proof.
  intros Hdec Hlogin Hissue Hsave.
  unfold serve, login. rewrite Hdec. run_handler.
  rewrite Hlogin. cbn. rewrite Hissue. cbn.
  destruct e1 as [e1|]; cbn; rewrite Hsave; destruct e2 as [e2|]; reflexivity.
Qed.

(** [login] and [createUser] attach session cookies exactly when the body
    decodes and [Login] / [CreateUser] returns a user and no error: a body
    that does not decode, a failed [Login] or a missing user never gets a
    cookie. *)
Theorem cookies_iff_user (r : Request) (s : AppState) :
  ((exists meta, In (AttachSessionCookies meta) (sent (snd (serve (login app dec) r s)))) <->
   snd (UserLoginFromJSON dec (Body r)) = None /\
   exists user, fst (Login app (fst (UserLoginFromJSON dec (Body r))) s) = (Some user, None)) /\
  ((exists meta, In (AttachSessionCookies meta) (sent (snd (serve (createUser app dec) r s)))) <->
   snd (UserFromJSON dec (Body r)) = None /\
   exists user, fst (CreateUser app (fst (UserFromJSON dec (Body r))) s) = (Some user, None)).
Proof.
  split.
  - unfold serve, login.
    destruct (UserLoginFromJSON dec (Body r)) as [u e]. cbn [fst snd].
    destruct e as [e|]; cbn.
    { split; [intros [m [Hin|[]]]; discriminate | intros [? _]; discriminate]. }
    run_handler.
    destruct (Login app u s) as [[user err] s1]. cbn.
    destruct err as [err|]; cbn.
    { split; [intros [m [Hin|[]]]; discriminate | intros [_ [? ?]]; discriminate]. }
    destruct (IssueTokens app user s1) as [[meta e1] s2]. cbn.
    destruct user as [user|]; cbn.
    + split; [intros _; split; [reflexivity | eauto] | intros _].
      destruct e1; cbn; destruct (SaveAuth app (User.ID user) meta s2) as [e2 s3];
        destruct e2; cbn; exists meta; tauto.
    + split; [|intros [_ [? ?]]; discriminate].
      destruct e1; cbn; [intros [m [Hin|[]]] | intros [m []]]; discriminate.
  - unfold serve, createUser.
    destruct (UserFromJSON dec (Body r)) as [u e]. cbn [fst snd].
    destruct e as [e|]; cbn.
    { split; [intros [m [Hin|[]]]; discriminate | intros [? _]; discriminate]. }
    run_handler.
    destruct (CreateUser app u s) as [[user err] s1]. cbn.
    destruct err as [err|]; cbn.
    { split; [intros [m [Hin|[]]]; discriminate | intros [_ [? ?]]; discriminate]. }
    destruct (IssueTokens app user s1) as [[meta e1] s2]. cbn.
    destruct user as [user|]; cbn.
    + split; [intros _; split; [reflexivity | eauto] | intros _].
      destruct e1; cbn; destruct (SaveAuth app (User.ID user) meta s2) as [e2 s3];
        destruct e2; cbn; exists meta; tauto.
    + split; [|intros [_ [? ?]]; discriminate].
      destruct e1; cbn; [intros [m [Hin|[]]] | intros [m []]]; discriminate.
Qed.

(** [logout] clears the session cookies before anything else, on every
    request: whatever the token extraction and [DeleteAuth] do (a panic
    included), the first call on the response writer is
    [DeleteSessionCookies] and at most one call follows it. *)
Theorem logout_always_clears_cookies (r : Request) (s : AppState) :
  exists rest,
    sent (snd (serve (logout app) r s)) = DeleteSessionCookies :: rest /\
    (length rest <= 1)%nat.
Proof.
  unfold serve, logout. run_handler.
  destruct (ExtractTokenMetadata app r s) as [[ad err] s1]. cbn.
  destruct err as [e|]; cbn; [eexists; split; [reflexivity | cbn; lia]|].
  destruct ad as [ad|]; cbn; [|eexists; split; [reflexivity | cbn; lia]].
  destruct (DeleteAuth app (AccessUUID ad) s1) as [[deleted err] s2]. cbn.
  destruct (is_Some_b err || (deleted =? 0)); cbn; eexists; (split; [reflexivity | cbn; lia]).
Qed.

(** [logout] whose token extraction fails sends that error and does not
    call [DeleteAuth]: the application is left as the extraction left it. *)
Lemma logout_without_token (r : Request) (s s1 : AppState)
    (ad : option AccessData) (e : AppErr) :
  ExtractTokenMetadata app r s = (ad, Some e, s1) ->
  serve (logout app) r s =
    (inl tt, {| app_state := s1; sent := [DeleteSessionCookies; respondError (Some e)] |}).
Proof.
  intros Hext. unfold serve, logout. run_handler. rewrite Hext. reflexivity.
Qed.

(** [refresh] attaches session cookies exactly when the body decodes and
    [RefreshToken] returns no error; in every case it answers once and does
    not panic. *)
Theorem refresh_attaches_iff_refreshed (r : Request) (s : AppState) :
  exists w, serve (refresh app dec) r s = (inl tt, w) /\
    ((exists meta, sent w = [AttachSessionCookies meta; respondOK]) \/
     (exists err, sent w = [respondError (Some err)])) /\
    ((exists meta, In (AttachSessionCookies meta) (sent w)) <->
     snd (RefreshTokenFromJSON dec (Body r)) = None /\
     snd (fst (RefreshToken_ app (fst (RefreshTokenFromJSON dec (Body r))) s)) = None).
Proof.
  unfold serve, refresh.
  destruct (RefreshTokenFromJSON dec (Body r)) as [rt e]. cbn [fst snd].
  destruct e as [e|]; cbn.
  - eexists; split; [reflexivity|]. cbn. split.
    + right. unfold decodeErr. eauto.
    + split; [intros [meta [Hin|[]]]; discriminate | intros [? _]; discriminate].
  - run_handler.
    destruct (RefreshToken_ app rt s) as [[meta err] s1]. cbn.
    destruct err as [err|]; cbn; (eexists; split; [reflexivity|]); cbn; split.
    + right. eauto.
    + split; [intros [m [Hin|[]]]; discriminate | intros [_ ?]; discriminate].
    + left. eauto.
    + split; [intros _; split; reflexivity | intros _; exists meta; now left].
Qed.

(** The tag loop of [createProduct] keeps the order and the number of the
    tag ids: it succeeds exactly when every id parses as a base-10 [int64],
    and then gives one tag per id, in order, carrying the parsed id. *)
Theorem parse_tags_spec (tagids : list string) :
  parse_tags tagids =
    if forallb (fun tid => negb (is_Some_b (snd (strconv.ParseInt tid)))) tagids
    then Some (List.map (fun tid => {| TagID := Some (fst (strconv.ParseInt tid)) |}) tagids)
    else None.
Proof.
  induction tagids as [|tid rest IH]; cbn; [reflexivity|].
  destruct (strconv.ParseInt tid) as [id [e|]]; cbn; [reflexivity|].
  rewrite IH. destruct (forallb _ rest); reflexivity.
Qed.

(** [createProduct] on a form that has an image and a properties value:
    it does not panic; it uses the first file under "image" and the first
    value under "properties" and ignores further ones; a tag id that does
    not parse is answered 500 without calling [CreateProduct]; otherwise
    [CreateProduct] gets the decoded product, that image, the files under
    "images" and the tags, and its result decides between its error and
    201. *)
Theorem createProduct_complete_form (r : Request) (s : AppState) (mpf : Form)
    (p : Product) (fh : FileHeader) (fhs : list FileHeader) (props : string) (more : list string) :
  ParseMultipartForm r = None ->
  MultipartForm r = Some mpf ->
  SchemaDecode dec (Value mpf) = (p, None) ->
  File mpf !! "image" = Some (fh :: fhs) ->
  Value mpf !! "properties" = Some (props :: more) ->
  serve (createProduct app dec) r s =
    match parse_tags (index_map (Value mpf) "tags") with
    | None =>
        (inl tt, {| app_state := s;
                    sent := [respondError (decodeErr "createProduct" msgProductAvatarMultipart)] |})
    | Some tags =>
        let '(product, pErr, s1) :=
          CreateProduct app p fh (index_map (File mpf) "images") tags props s in
        (inl tt, {| app_state := s1;
                    sent := [if is_Some_b pErr then respondError pErr
                             else respondJSON StatusCreated (ProductJSON product)] |})
    end.
Proof.
  intros Hparse Hform Hdecode Himage Hprops.
  unfold serve, createProduct. rewrite Hparse, Hform. run_handler.
  assert (Hi : index_map (File mpf) "image" = fh :: fhs)
    by (unfold index_map; now rewrite Himage).
  assert (Hp : index_map (Value mpf) "properties" = props :: more)
    by (unfold index_map; now rewrite Hprops).
  rewrite Hdecode. cbn. rewrite Hi, Hp. cbn.
  destruct (parse_tags (index_map (Value mpf) "tags")) as [tags|]; [|reflexivity].
  cbn.
  destruct (CreateProduct app p fh (index_map (File mpf) "images") tags props s)
    as [[product pErr] s1]. cbn.
  destruct pErr; reflexivity.
Qed.

End Handlers.

End ApiMore.

(** The other handlers. *)
Module HandlersFacts.
Import model handlers.

Section Handlers.
Context `{Values} {AppState : Type}.
Variable app : App (AppState := AppState).
Variable lib : Lib.

(** A handler that, on every request and in every state of the
    application, returns without a panic after exactly one call on the
    response writer. *)
Definition answers_once (h : Request -> M unit) : Prop :=
  forall (r : Request) (s : AppState),
    exists w, serve h r s = (inl tt, w) /\ length (sent w) = 1%nat.

Ltac run_handler :=
  unfold serve, mbind, M_bind, bind, call, emit, when, deref, ret, panic; cbn.

(** Splits on every result a handler looks at. *)
Ltac split_cases :=
  repeat (cbn;
    match goal with
    | |- context [match ?x with _ => _ end] =>
        lazymatch x with
        | context [match _ with _ => _ end] => fail
        | _ => destruct x
        end
    | |- context [if ?b then _ else _] =>
        lazymatch b with
        | context [match _ with _ => _ end] => fail
        | _ => destruct b
        end
    end).

Ltac answer_once := intros r s; run_handler; split_cases; eexists; split; reflexivity.

(** Every handler of the user and product routes listed here answers
    exactly once and never panics, whatever the request, the decoders and
    the application do. ([login], [createUser], [logout], [createProduct]
    and [deleteUserAvatar] are not among them.) *)
Theorem handlers_answer_once :
  Forall answers_once
    [ currentUser app; sendVerificationEmail app lib; verifyUserEmail app lib;
      sendPasswordResetEmail app lib; resetUserPassword app lib;
      updateProfile app lib; changeUserPassword app lib;
      getUser app; deleteUser app; uploadUserAvatar app lib;
      createUserAddress app lib; getUserAddress app; updateUserAddress app lib;
      deleteUserAddress app;
      deleteProduct app; getProduct app; getProducts app lib; getProductTags app;
      getProductImages app; getProductReviews app; getSingleTag app;
      getSingleImage app; patchProductImage app lib; deleteProductTag app;
      deleteProductImage app; getProductProperties app;
      getFeaturedProducts app lib; searchProducts app ].
Proof.
  repeat apply Forall_cons; try apply Forall_nil.
  - unfold currentUser. answer_once.
  - unfold sendVerificationEmail. answer_once.
  - unfold verifyUserEmail. answer_once.
  - unfold sendPasswordResetEmail. answer_once.
  - unfold resetUserPassword. answer_once.
  - unfold updateProfile. answer_once.
  - unfold changeUserPassword. answer_once.
  - unfold getUser. answer_once.
  - unfold deleteUser. answer_once.
  - unfold uploadUserAvatar, FormFile. answer_once.
  - unfold createUserAddress. answer_once.
  - unfold getUserAddress. answer_once.
  - unfold updateUserAddress. answer_once.
  - unfold deleteUserAddress. answer_once.
  - unfold deleteProduct. answer_once.
  - unfold getProduct. answer_once.
  - unfold getProducts. answer_once.
  - unfold getProductTags. answer_once.
  - unfold getProductImages. answer_once.
  - unfold getProductReviews. answer_once.
  - unfold getSingleTag. answer_once.
  - unfold getSingleImage. answer_once.
  - unfold patchProductImage. answer_once.
  - unfold deleteProductTag. answer_once.
  - unfold deleteProductImage. answer_once.
  - unfold getProductProperties. answer_once.
  - unfold getFeaturedProducts. answer_once.
  - unfold searchProducts. answer_once.
Qed.

(** A handler that answers an id it cannot parse with its 500 error and
    leaves the application alone. *)
Definition rejects_bad_id (h : Request -> M unit) (key op : string) (msg : Message) : Prop :=
  forall (r : Request) (s : AppState),
    snd (strconv.ParseInt (URLParam r key)) <> None ->
    serve h r s =
      (inl tt, {| app_state := s;
                  sent := [respondError (appErr op ErrInternal msg StatusInternalServerError)] |}).

Ltac reject_bad_id :=
  intros r s Hbad; run_handler;
  destruct (strconv.ParseInt _) as [id [e|]]; [reflexivity | now destruct Hbad].

(** A URL parameter that is not a base-10 [int64] is answered with status
    500 (code [ErrInternal]) by every handler that reads an id, each with its
    own operation name and message, and without a call of the application.
    [getProductImages] names the operation "getProduct". *)
Theorem bad_ids_are_500 :
  rejects_bad_id (getUser app) "user_id" "getUser" msgUserURLParams /\
  rejects_bad_id (deleteUser app) "user_id" "deleteUser" msgUserURLParams /\
  rejects_bad_id (getUserAddress app) "address_id" "getUserAddress" msgURLParamErr /\
  rejects_bad_id (updateUserAddress app lib) "address_id" "updateUserAddress" msgURLParamErr /\
  rejects_bad_id (deleteUserAddress app) "address_id" "deleteUserAddress" msgDeleteUserAddress /\
  rejects_bad_id (deleteProduct app) "product_id" "deleteProduct" msgURLParamErr /\
  rejects_bad_id (getProduct app) "product_id" "getProduct" msgURLParamErr /\
  rejects_bad_id (getProductTags app) "product_id" "getProductTags" msgURLParamErr /\
  rejects_bad_id (getProductImages app) "product_id" "getProduct" msgURLParamErr /\
  rejects_bad_id (getProductReviews app) "product_id" "getProductReviews" msgURLParamErr /\
  rejects_bad_id (getSingleTag app) "tag_id" "getSingleTag" msgURLParamErr /\
  rejects_bad_id (getSingleImage app) "image_id" "getSingleImage" msgURLParamErr /\
  rejects_bad_id (patchProductImage app lib) "image_id" "patchProductImage" msgURLParamErr /\
  rejects_bad_id (deleteProductTag app) "tag_id" "deleteProductTag" msgURLParamErr /\
  rejects_bad_id (deleteProductImage app) "image_id" "deleteProductImage" msgURLParamErr.
Proof.
  repeat split.
  - unfold getUser. reject_bad_id.
  - unfold deleteUser. reject_bad_id.
  - unfold getUserAddress. reject_bad_id.
  - unfold updateUserAddress. reject_bad_id.
  - unfold deleteUserAddress. reject_bad_id.
  - unfold deleteProduct. reject_bad_id.
  - unfold getProduct. reject_bad_id.
  - unfold getProductTags. reject_bad_id.
  - unfold getProductImages. reject_bad_id.
  - unfold getProductReviews. reject_bad_id.
  - unfold getSingleTag. reject_bad_id.
  - unfold getSingleImage. reject_bad_id.
  - unfold patchProductImage. reject_bad_id.
  - unfold deleteProductTag. reject_bad_id.
  - unfold deleteProductImage. reject_bad_id.
Qed.

(** The three passwords of a change request, as [changeUserPassword]
    accepts them: none is empty and the new one is confirmed. *)
Definition passwords_ok (props : gmap string string) : Prop :=
  get props "old_password" <> "" /\ get props "new_password" <> "" /\
  get props "confirm_password" <> "" /\
  get props "new_password" = get props "confirm_password".

Lemma passwords_ok_guard (props : gmap string string) :
  is_empty (get props "old_password") || is_empty (get props "new_password")
    || is_empty (get props "confirm_password")
    || negb (String.eqb (get props "new_password") (get props "confirm_password")) = false
  <-> passwords_ok props.
Proof.
  unfold passwords_ok.
  rewrite !orb_false_iff, negb_false_iff, String.eqb_eq.
  rewrite !ModelFacts.is_empty_false. tauto.
Qed.

(** [changeUserPassword] reaches [ChangeUserPassword] exactly when the old,
    the new and the confirming password are all non-empty and the new one
    equals its confirmation; it then relays the application's answer. Every
    other request (a missing field reads as the empty string) is answered 400
    and the application is not called. *)
Theorem changeUserPassword_guard (r : Request) (s : AppState) :
  let props := MapStrStrFromJSON lib (Body r) in
  (passwords_ok props ->
   serve (changeUserPassword app lib) r s =
     let '(err, s1) := ChangeUserPassword app (uid_of app r)
                         (get props "old_password") (get props "new_password") s in
     (inl tt, {| app_state := s1;
                 sent := [if is_Some_b err then respondError err else respondOK] |})) /\
  (~ passwords_ok props ->
   serve (changeUserPassword app lib) r s =
     (inl tt, {| app_state := s;
                 sent := [respondError (appErr "api.changeUserPassword" ErrInvalid
                                          msgInvalidPassword StatusBadRequest)] |})).
Proof.
  cbn zeta. unfold serve, changeUserPassword.
  set (props := MapStrStrFromJSON lib (Body r)).
  pose proof (passwords_ok_guard props) as Hguard.
  destruct (is_empty (get props "old_password") || is_empty (get props "new_password")
            || is_empty (get props "confirm_password")
            || negb (String.eqb (get props "new_password") (get props "confirm_password"))).
  - split; [intros Hok; apply Hguard in Hok; discriminate | reflexivity].
  - split; [intros _ | intros Hno; destruct Hno; now apply Hguard].
    run_handler.
    destruct (ChangeUserPassword app _ _ _ s) as [err s1]. cbn.
    destruct err; reflexivity.
Qed.

(** [sendVerificationEmail] answers a valid address with [respondOK] and
    nothing else, whether or not a user has that address and whether or not
    the mail could be sent: the response does not depend on the application.
    An empty or invalid address is answered 400. *)
Theorem sendVerificationEmail_does_not_leak (r : Request) (s : AppState) :
  let email := NormalizeEmail lib (get (MapStrStrFromJSON lib (Body r)) "email") in
  exists w, serve (sendVerificationEmail app lib) r s = (inl tt, w) /\
    sent w = if is_empty email || negb (IsValidEmail lib email)
             then [respondError (appErr "api.sendVerificationEmail" ErrInvalid
                                   msgInvalidEmail StatusBadRequest)]
             else [respondOK].
Proof.
  cbn zeta. unfold serve, sendVerificationEmail.
  destruct (is_empty _ || negb _); [eexists; split; reflexivity|].
  run_handler. split_cases; eexists; split; reflexivity.
Qed.

(** [deleteUserAvatar], by what [GetUserByID] returns. Its error is sent
    but does not end the handler. A nil user, or a user without avatar,
    makes the handler panic on [*user.AvatarPublicID]; otherwise
    [DeleteUserAvatar] is called and its answer is sent, after the error of
    [GetUserByID] if there was one. *)
Theorem deleteUserAvatar_cases (r : Request) (s s1 : AppState)
    (user : option User.t) (err : option AppErr) :
  GetUserByID app (uid_of app r) s = (user, err, s1) ->
  serve (deleteUserAvatar app) r s =
    let pre := if is_Some_b err then [respondError err] else [] in
    match user ≫= User.AvatarPublicID with
    | None =>
        (inr "invalid memory address or nil pointer dereference",
         {| app_state := s1; sent := pre |})
    | Some publicID =>
        let '(e2, s2) := DeleteUserAvatar app (uid_of app r) publicID s1 in
        (inl tt, {| app_state := s2;
                    sent := pre ++ [if is_Some_b e2 then respondError e2 else respondOK] |})
    end.
Proof.
  intros Hget. unfold serve, deleteUserAvatar. run_handler. rewrite Hget. cbn.
  destruct err as [e|]; cbn;
    (destruct user as [u|]; cbn; [|reflexivity]);
    (destruct (User.AvatarPublicID u) as [publicID|]; cbn; [|reflexivity]);
    destruct (DeleteUserAvatar app _ publicID s1) as [e2 s2]; cbn;
    destruct e2; reflexivity.
Qed.

(** [uploadUserAvatar] on a form without a file under "avatar": answered
    500, with no panic and no call of the application. *)
Theorem uploadUserAvatar_missing_file (r : Request) (s : AppState) (mpf : Form) :
  ParseMultipartForm r = None ->
  MultipartForm r = Some mpf ->
  File_ mpf !! "avatar" = None ->
  serve (uploadUserAvatar app lib) r s =
    (inl tt, {| app_state := s;
                sent := [respondError (appErr "uploadUserAvatar" ErrInternal
                                         msgUserAvatarMultipart StatusInternalServerError)] |}).
Proof.
  intros Hparse Hform Hfile.
  unfold serve, uploadUserAvatar, FormFile. rewrite Hparse, Hform, Hfile. reflexivity.
Qed.

End Handlers.

End HandlersFacts.

(** The hooks of [ProductBrand] and the shape of a validation error. *)
Module BrandMore.
Import model model.ProductBrand ProductBrandHooks.

Lemma failing_sublist (l : list (bool * ValidationError)) :
  failing l `sublist_of` List.map snd l.
Proof.
  unfold failing. induction l as [|[b e] l IH]; cbn; [constructor|].
  destruct b; cbn; [now apply sublist_cons | now apply sublist_skip].
Qed.

Lemma all_entries_fields_NoDup : NoDup (List.map Field all_entries).
Proof. apply (bool_decide_unpack _). vm_compute. exact I. Qed.

(** A validation error of [Validate] is the error "ProductBrand" with at
    least one and at most ten entries, which are entries of the ten checks in
    the order of the checks, no field reported twice. *)
Theorem Validate_error_shape (pb : ProductBrand.t) (e : AppErr) :
  Validate pb = Some e ->
  exists errs,
    e = NewValidationError "ProductBrand" msgInvalidBrand "" errs /\
    errs `sublist_of` all_entries /\
    NoDup (List.map Field errs) /\
    (1 <= length errs <= 10)%nat.
Proof.
  rewrite ModelFacts.Validate_entries. unfold failing_entries.
  pose proof (failing_sublist (brand_criteria pb)) as Hsub.
  change (List.map snd (brand_criteria pb)) with all_entries in Hsub.
  destruct (failing (brand_criteria pb)) as [|e1 errs] eqn:Hf; [discriminate|].
  intros [= <-]. exists (e1 :: errs). repeat split.
  - exact Hsub.
  - assert (Hs : List.map Field (e1 :: errs) `sublist_of` List.map Field all_entries)
      by (apply (fmap_sublist Field); exact Hsub).
    exact (sublist_NoDup _ _ all_entries_fields_NoDup Hs).
  - cbn. lia.
  - apply sublist_length in Hsub. exact Hsub.
Qed.

Lemma Validate_None_iff (pb : ProductBrand.t) : Validate pb = None <-> brand_ok pb.
Proof.
  rewrite ModelFacts.Validate_entries, ModelFacts.brand_ok_iff.
  unfold failing_entries. rewrite <- ModelFacts.failing_nil_iff.
  destruct (failing (brand_criteria pb)); split; congruence.
Qed.

Lemma In_failing (l : list (bool * ValidationError)) (e : ValidationError) :
  In e (failing l) -> In (false, e) l.
Proof.
  unfold failing. rewrite List.in_map_iff. intros [[b e'] [Heq Hin]].
  apply List.filter_In in Hin as [Hin Hb]. cbn in *. subst e'.
  destruct b; [discriminate | exact Hin].
Qed.

Section Hooks.
Variable NormalizeEmail : string -> string.

(** [PreSave] at a clock reading that is not the zero time sets both
    timestamps to that reading, and [Validate] then passes exactly when the
    ids are 0, the five texts are non-empty and the normalized email is
    non-empty: neither timestamp is ever reported after [PreSave]. *)
Theorem Validate_after_PreSave (now : time.Time) (pb : ProductBrand.t) :
  time.IsZero now = false ->
  CreatedAt (PreSave NormalizeEmail now pb) = now /\
  UpdatedAt (PreSave NormalizeEmail now pb) = now /\
  (Validate (PreSave NormalizeEmail now pb) = None <->
   ID pb = 0 /\ ProductID pb = 0 /\ Name pb <> "" /\ Slug pb <> "" /\ Type_ pb <> "" /\
   Description pb <> "" /\ NormalizeEmail (Email pb) <> "" /\ WebsiteURL pb <> "") /\
  (forall e, In e (failing_entries (PreSave NormalizeEmail now pb)) ->
     Field e <> "brand.created_at" /\ Field e <> "brand.updated_at").
Proof.
  intros Hnow. split; [reflexivity|]. split; [reflexivity|]. split.
  - rewrite Validate_None_iff. unfold brand_ok, PreSave.
    cbn [ID ProductID Name Slug Type_ Description Email WebsiteURL CreatedAt UpdatedAt].
    rewrite Hnow. tauto.
  - intros e Hin. apply In_failing in Hin.
    unfold brand_criteria, PreSave in Hin.
    cbn [ID ProductID Name Slug Type_ Description Email WebsiteURL CreatedAt UpdatedAt] in Hin.
    rewrite Hnow in Hin. cbn [negb In] in Hin.
    repeat (destruct Hin as [Heq|Hin];
            [injection Heq as Hb <-; cbn [Field];
             first [discriminate Hb | split; discriminate]|]).
    destruct Hin.
Qed.

(** [PreUpdate] keeps the ids, so a brand that carries an id (as every
    stored brand does) does not pass [Validate] after [PreUpdate] either:
    the error starts with the entry "brand.id". *)
Theorem Validate_after_PreUpdate_stored (now : time.Time) (pb : ProductBrand.t) :
  ID pb <> 0 ->
  ID (PreUpdate NormalizeEmail now pb) = ID pb /\
  CreatedAt (PreUpdate NormalizeEmail now pb) = CreatedAt pb /\
  UpdatedAt (PreUpdate NormalizeEmail now pb) = now /\
  exists errs,
    Validate (PreUpdate NormalizeEmail now pb) =
      Some (NewValidationError "ProductBrand" msgInvalidBrand ""
              (Invalid "brand.id" "en" msgValidateBrandID :: errs)).
Proof.
  intros Hid. repeat split.
  rewrite ModelFacts.Validate_entries.
  unfold failing_entries, failing, brand_criteria. cbn.
  apply Z.eqb_neq in Hid. rewrite Hid. cbn. eauto.
Qed.

End Hooks.

End BrandMore.

(** The further properties at concrete requests. *)
Module MoreRuns.
Import model.
#[local] Existing Instance Demo.values.

(** A login with the session store down: one error, then the cookies and
    the 200. *)
Lemma login_log_after_Login_witness :
  apiv1.serve (apiv1.login Demo.app Demo.dec) (Demo.request "ana@example.com") Demo.store_down =
    (inl tt,
     {| apiv1.app_state := Demo.store_down;
        apiv1.sent := [apiv1.respondError (Some Demo.errSaveAuth);
                       apiv1.AttachSessionCookies (Some "uuid-1");
                       apiv1.respondJSON StatusOK (apiv1.UserJSON (Some Demo.ana))] |}).
Proof.
  exact (ApiMore.login_log_after_Login Demo.app Demo.dec (Demo.request "ana@example.com")
           Demo.store_down Demo.store_down Demo.store_down Demo.store_down
           (Some "ana@example.com") Demo.ana (Some "uuid-1") None (Some Demo.errSaveAuth)
           eq_refl eq_refl eq_refl eq_refl).
Defined.

(** A product form with two images under "image", two properties values
    and two tags. *)
Definition full_form : apiv1.Form (H := Demo.values) := {|
  apiv1.Value := {["properties" := ["{}"; "ignored"]; "tags" := ["1"; "22"]]};
  apiv1.File := {["image" := ["a.png"; "b.png"]]} |}.

Lemma createProduct_complete_form_witness :
  apiv1.serve (apiv1.createProduct Demo.app Demo.dec) (Demo.create_request full_form)
    Demo.one_session =
    (inl tt,
     {| apiv1.app_state := Demo.one_session;
        apiv1.sent := [apiv1.respondJSON StatusCreated (apiv1.ProductJSON (Some "product"))] |}).
Proof.
  exact (ApiMore.createProduct_complete_form Demo.app Demo.dec (Demo.create_request full_form)
           Demo.one_session full_form "product" "a.png" ["b.png"] "{}" ["ignored"]
           eq_refl eq_refl eq_refl eq_refl eq_refl).
Defined.

Import handlers HandlersDemo.
#[local] Existing Instance HandlersDemo.values.

Lemma abc_does_not_parse :
  snd (strconv.ParseInt (URLParam (request "" {["user_id" := "abc"]}) "user_id")) <> None.
Proof. vm_compute. discriminate. Qed.

(** The user id "abc" matches the route and does not parse. *)
Lemma bad_ids_are_500_witness :
  serve (getUser app) (request "" {["user_id" := "abc"]}) 0 =
    (inl tt, {| app_state := 0;
                sent := [respondError (appErr "getUser" ErrInternal msgUserURLParams
                                         StatusInternalServerError)] |}).
Proof.
  exact (proj1 (HandlersFacts.bad_ids_are_500 app lib)
           (request "" {["user_id" := "abc"]}) 0 abc_does_not_parse).
Defined.

Definition change_body : string :=
  "old_password=hash&new_password=s3cret&confirm_password=s3cret".

Lemma change_body_ok : HandlersFacts.passwords_ok (MapStrStrFromJSON lib change_body).
Proof. vm_compute. repeat split; discriminate. Defined.

(** A change of password with the three fields reaches the application
    (the state counts one call). *)
Lemma changeUserPassword_guard_witness :
  serve (changeUserPassword app lib) (request change_body ∅) 0 =
    (inl tt, {| app_state := 1; sent := [respondOK] |}).
Proof.
  exact (proj1 (HandlersFacts.changeUserPassword_guard app lib (request change_body ∅) 0)
           change_body_ok).
Defined.

(** The user of the demo has no avatar: deleting it panics. *)
Lemma deleteUserAvatar_cases_witness :
  serve (deleteUserAvatar app) (request "" ∅) 0 =
    (inr "invalid memory address or nil pointer dereference",
     {| app_state := 1; sent := [] |}).
Proof.
  exact (HandlersFacts.deleteUserAvatar_cases app (request "" ∅) 0 1
           (Some Demo.ana) None eq_refl).
Defined.

Lemma uploadUserAvatar_missing_file_witness :
  serve (uploadUserAvatar app lib) (request "" ∅) 0 =
    (inl tt, {| app_state := 0;
                sent := [respondError (appErr "uploadUserAvatar" ErrInternal
                                         msgUserAvatarMultipart StatusInternalServerError)] |}).
Proof.
  exact (HandlersFacts.uploadUserAvatar_missing_file app lib (request "" ∅) 0
           {| Value := ∅; File_ := ∅ |} eq_refl eq_refl eq_refl).
Defined.

(** With a file under "avatar" the upload is served. *)
Example uploadUserAvatar_with_file :
  serve (uploadUserAvatar app lib)
    {| Body := ""; Context_ := 7; URLParams := ∅; Query := ∅; ParseMultipartForm := None;
       MultipartForm := Some {| Value := ∅; File_ := {["avatar" := ["me.png"]]} |} |} 0 =
    (inl tt, {| app_state := 1;
                sent := [respondJSON StatusCreated (AvatarJSON "https://cdn.test/me.png" "me.png")] |}).
Proof. reflexivity. Qed.

(** An empty catalogue is listed with total -1. *)
Example getProducts_empty :
  serve (getProducts app lib) (request "" ∅) 0 =
    (inl tt, {| app_state := 1; sent := [respondJSON StatusOK (PagesJSON ([], -1))] |}).
Proof. reflexivity. Qed.

Import model.ProductBrand ProductBrandHooks.

Definition noon : time.Time := {| time.sec := 63800000000; time.nsec := 0 |}.

Lemma Validate_error_shape_witness :
  exists errs,
    NewValidationError "ProductBrand" msgInvalidBrand ""
      [ Invalid "brand.id" "en" msgValidateBrandID;
        Invalid "brand.name" "en" msgValidateBrandName;
        Invalid "brand.updated_at" "en" msgValidateBrandUpAt ]
    = NewValidationError "ProductBrand" msgInvalidBrand "" errs /\
    errs `sublist_of` all_entries /\
    NoDup (List.map Field errs) /\
    (1 <= length errs <= 10)%nat.
Proof.
  exact (BrandMore.Validate_error_shape Demo.broken_acme _ eq_refl).
Defined.

Lemma Validate_after_PreSave_witness :
  CreatedAt (PreSave (fun e => e) noon Demo.broken_acme) = noon /\
  UpdatedAt (PreSave (fun e => e) noon Demo.broken_acme) = noon /\
  (Validate (PreSave (fun e => e) noon Demo.broken_acme) = None <->
   ID Demo.broken_acme = 0 /\ ProductID Demo.broken_acme = 0 /\
   Name Demo.broken_acme <> "" /\ Slug Demo.broken_acme <> "" /\
   Type_ Demo.broken_acme <> "" /\ Description Demo.broken_acme <> "" /\
   Email Demo.broken_acme <> "" /\ WebsiteURL Demo.broken_acme <> "") /\
  (forall e, In e (failing_entries (PreSave (fun e => e) noon Demo.broken_acme)) ->
     Field e <> "brand.created_at" /\ Field e <> "brand.updated_at").
Proof.
  exact (BrandMore.Validate_after_PreSave (fun e => e) noon Demo.broken_acme eq_refl).
Defined.

(** After [PreSave] the broken brand is reported for its id and its name
    only; the good one passes. *)
Example PreSave_then_Validate :
  Validate (PreSave (fun e => e) noon Demo.broken_acme) =
    Some (NewValidationError "ProductBrand" msgInvalidBrand ""
            [ Invalid "brand.id" "en" msgValidateBrandID;
              Invalid "brand.name" "en" msgValidateBrandName ]) /\
  Validate (PreSave (fun e => e) noon Demo.acme) = None.
Proof. split; reflexivity. Qed.

Lemma Validate_after_PreUpdate_stored_witness :
  ID (PreUpdate (fun e => e) noon Demo.broken_acme) = ID Demo.broken_acme /\
  CreatedAt (PreUpdate (fun e => e) noon Demo.broken_acme) = CreatedAt Demo.broken_acme /\
  UpdatedAt (PreUpdate (fun e => e) noon Demo.broken_acme) = noon /\
  exists errs,
    Validate (PreUpdate (fun e => e) noon Demo.broken_acme) =
      Some (NewValidationError "ProductBrand" msgInvalidBrand ""
              (Invalid "brand.id" "en" msgValidateBrandID :: errs)).
Proof.
  exact (BrandMore.Validate_after_PreUpdate_stored (fun e => e) noon Demo.broken_acme
           ltac:(discriminate)).
Defined.

End MoreRuns.
